(** * The Kumru relay (src/kumru.py): a shallow embedding and its properties

    The FastAPI router of src/kumru.py forwards a question, or the pages of an
    uploaded PDF, to an Ollama server and assembles the answers.  The handlers
    are embedded as computations in a small state-and-exception monad: the
    state is the log of outbound POST requests, exceptions are Python
    exceptions.  The collaborators (PyMuPDF, the Ollama server behind httpx,
    the process environment) are variables of the section; a document is what
    the loop over it meets, page after page: a page with its text, or the
    exception that loading or reading the page raises. *)

From Stdlib Require Import ZArith NArith List Sorted Ascii String Lia DecimalString.
From stdpp Require Import base option list countable gmap.

Local Open Scope N_scope.

(** Closed goals are settled by evaluation. *)
Ltac run := vm_compute; reflexivity.

(** ** Python strings *)

(** A Python [str] is a sequence of Unicode code points. *)
Definition pystr : Type := list N.

(** Literals are written as in the source and decoded from the UTF-8 bytes of
    this file. *)
Fixpoint utf8_decode (bs : list N) : pystr :=
  match bs with
  | [] => []
  | b0 :: r0 =>
      if b0 <? 128 then b0 :: utf8_decode r0
      else
        match r0 with
        | [] => []
        | b1 :: r1 =>
            if b0 <? 224 then ((b0 - 192) * 64 + (b1 - 128)) :: utf8_decode r1
            else
              match r1 with
              | [] => []
              | b2 :: r2 =>
                  if b0 <? 240
                  then ((b0 - 224) * 4096 + (b1 - 128) * 64 + (b2 - 128))
                         :: utf8_decode r2
                  else
                    match r2 with
                    | [] => []
                    | b3 :: r3 =>
                        ((b0 - 240) * 262144 + (b1 - 128) * 4096
                         + (b2 - 128) * 64 + (b3 - 128)) :: utf8_decode r3
                    end
              end
        end
  end.

Definition lit (s : string) : pystr :=
  utf8_decode (map N_of_ascii (list_ascii_of_string s)).

(** The line feed of the source's escapes. *)
Definition LF : pystr := [10].

(** [str(n)] and [f"{n}"] of a non-negative [int]: its decimal digits. *)
Definition str_of_int (n : N) : pystr :=
  lit (NilZero.string_of_uint (N.to_uint n)).

(** The code points [str.strip()] removes (CPython's [_PyUnicode_IsWhitespace]). *)
Definition Py_UNICODE_ISSPACE (c : N) : bool :=
  ((9 <=? c) && (c <=? 13)) || ((28 <=? c) && (c <=? 32))
  || (c =? 133) || (c =? 160) || (c =? 5760)
  || ((8192 <=? c) && (c <=? 8202))
  || (c =? 8232) || (c =? 8233) || (c =? 8239) || (c =? 8287) || (c =? 12288).

Fixpoint lstrip (s : pystr) : pystr :=
  match s with
  | [] => []
  | c :: s' => if Py_UNICODE_ISSPACE c then lstrip s' else s
  end.

Definition rstrip (s : pystr) : pystr := rev (lstrip (rev s)).

(** [s.strip()] *)
Definition strip (s : pystr) : pystr := rstrip (lstrip s).

(** Truth value of a [str]: false exactly for the empty string. *)
Definition truthy (s : pystr) : bool :=
  match s with [] => false | _ :: _ => true end.

(** [needle in hay] *)
Fixpoint startswith (hay needle : pystr) : bool :=
  match needle, hay with
  | [], _ => true
  | _ :: _, [] => false
  | a :: needle', b :: hay' => (a =? b) && startswith hay' needle'
  end.

Fixpoint contains (hay needle : pystr) : bool :=
  startswith hay needle
  || match hay with
     | [] => false
     | _ :: hay' => contains hay' needle
     end.

(** [enumerate(l, start)] *)
Fixpoint enumerate {A : Type} (start : N) (l : list A) : list (N * A) :=
  match l with
  | [] => []
  | x :: l' => (start, x) :: enumerate (start + 1) l'
  end.

(** ** Exceptions *)

(** The classes of [Exception] the handlers can meet.  httpx's hierarchy:
    [RequestError] has the subclasses [TransportError] (with
    [TimeoutException], [NetworkError], [ProtocolError], [ProxyError],
    [UnsupportedProtocol]), [DecodingError] and [TooManyRedirects];
    [HTTPStatusError] is an [HTTPError] but not a [RequestError]. *)
Inductive exc_class : Type :=
  | ConnectTimeout | ReadTimeout | WriteTimeout | PoolTimeout
  | ConnectError | ReadError | WriteError | CloseError
  | LocalProtocolError | RemoteProtocolError
  | ProxyError | UnsupportedProtocol
  | DecodingError | TooManyRedirects
  | HTTPStatusError
  | JSONDecodeError
  | AttributeError
  | ValidationError
  | OtherException.

(** An exception object, observed through its class and [str(e)]. *)
Record exn : Type := Exn { exc_type : exc_class; exc_str : pystr }.

(** [isinstance(e, httpx.TimeoutException)] *)
Definition isinstance_TimeoutException (e : exn) : bool :=
  match exc_type e with
  | ConnectTimeout | ReadTimeout | WriteTimeout | PoolTimeout => true
  | _ => false
  end.

(** [isinstance(e, httpx.NetworkError)] *)
Definition isinstance_NetworkError (e : exn) : bool :=
  match exc_type e with
  | ConnectError | ReadError | WriteError | CloseError => true
  | _ => false
  end.

(** [isinstance(e, httpx.RequestError)] *)
Definition isinstance_RequestError (e : exn) : bool :=
  match exc_type e with
  | ConnectTimeout | ReadTimeout | WriteTimeout | PoolTimeout
  | ConnectError | ReadError | WriteError | CloseError
  | LocalProtocolError | RemoteProtocolError
  | ProxyError | UnsupportedProtocol
  | DecodingError | TooManyRedirects => true
  | HTTPStatusError | JSONDecodeError | AttributeError
  | ValidationError | OtherException => false
  end.

(** [fastapi.HTTPException(status_code=..., detail=...)] *)
Record HTTPException : Type :=
  mkHTTPException { status_code : N; detail : pystr }.

(** ** Data *)

(** [class KumruRequest(BaseModel)] *)
Record KumruRequest : Type := mkKumruRequest { question : pystr }.

(** [class KumruResponse(BaseModel)] *)
Record KumruResponse : Type := mkKumruResponse { kumru_response : pystr }.

(** The [json=] body of an outbound call. *)
Record Payload : Type :=
  mkPayload { model : pystr; prompt : pystr; stream : bool }.

(** One [client.post(url, json=payload, timeout=t)]; [t] in seconds. *)
Record Request : Type :=
  mkRequest { url : pystr; json_body : Payload; timeout : N }.

(** A value stored under a key of the decoded JSON: a [str], or a value of
    another type, observed through the name of its type and its [str()]. *)
Inductive field_value : Type :=
  | FStr (s : pystr)
  | FOther (tyname shown : pystr).

(** What [response.json()] returns: a [dict], or a value of another type. *)
Inductive json_value : Type :=
  | JDict (d : gmap pystr field_value)
  | JNotDict (tyname : pystr).

(** An [httpx.Response]: its status code, the message [raise_for_status]
    raises with, and the outcome of [json()] (the message of the decoding
    error, or the decoded value). *)
Record Response : Type :=
  mkResponse { resp_status_code : N;
               resp_status_message : pystr;
               resp_json : pystr + json_value }.

(** A page of a [fitz.Document] that the loop has loaded and read, observed
    through what [get_text("text")] returned. *)
Record Page : Type := mkPage { get_text : pystr }.

(** [UploadFile], observed through the bytes [read()] returns. *)
Record UploadFile : Type := mkUploadFile { read : list Byte.byte }.

(** ** The monad of a handler: the log of outbound calls, and exceptions *)

Definition M (E A : Type) : Type :=
  list Request -> (E + A) * list Request.

Definition ret {E A} (a : A) : M E A := fun log => (inr a, log).

Definition raise {E A} (e : E) : M E A := fun log => (inl e, log).

Definition bind {E A B} (c : M E A) (k : A -> M E B) : M E B :=
  fun log =>
    match c log with
    | (inl e, log') => (inl e, log')
    | (inr a, log') => k a log'
    end.

(** [try: c except Exception as e: h e] *)
Definition try_except {E E' A} (c : M E A) (h : E -> M E' A) : M E' A :=
  fun log =>
    match c log with
    | (inl e, log') => h e log'
    | (inr a, log') => (inr a, log')
    end.

Definition lift_result {E A} (r : E + A) : M E A := fun log => (r, log).

Declare Scope handler_scope.
Delimit Scope handler_scope with handler.
Notation "x <- c ;; k" := (bind c (fun x => k))
  (at level 100, c at next level, right associativity) : handler_scope.

(** The status a client sees: that of the [HTTPException], or 200. *)
Definition http_status {A} (r : HTTPException + A) : N :=
  match r with
  | inl e => status_code e
  | inr _ => 200
  end.

(** ** Sample documents and servers *)

(** A four-page document: pages 1 and 3 have no text. *)
Definition hello_world_pdf : list Page :=
  [mkPage []; mkPage (lit "Hello"); mkPage []; mkPage (lit "World")].

(** A two-page document whose first page holds only white space. *)
Definition blank_first_pdf : list Page :=
  [mkPage (lit "  " ++ LF ++ lit " "); mkPage (lit "Merhaba")].

(** A 200 answer whose JSON is [{"response": s}]. *)
Definition ok_response (s : pystr) : Response :=
  mkResponse 200 [] (inr (JDict {[ lit "response" := FStr s ]})).

(** A 200 answer whose JSON object has no [response] key. *)
Definition done_response : Response :=
  mkResponse 200 [] (inr (JDict {[ lit "done" := FOther (lit "bool") (lit "True") ]})).

(** A server that answers every call, numbering its answers. *)
Definition answering_server (log : list Request) (req : Request)
  : exn + Response :=
  inr (ok_response (lit " answer " ++ str_of_int (N.of_nat (length log)) ++ LF)).

(** A server whose answer to the call after [k] others does not arrive. *)
Definition call_fails_at (k : nat) (log : list Request) (req : Request)
  : exn + Response :=
  if Nat.eqb (length log) k
  then inl (Exn ConnectError (lit "All connection attempts failed"))
  else answering_server log req.

(** A server that cannot be reached, one that times out, one that answers
    with status 500, and one whose body is not JSON. *)
Definition unreachable_server (log : list Request) (req : Request)
  : exn + Response :=
  inl (Exn ConnectError (lit "All connection attempts failed")).

Definition timing_out_server (log : list Request) (req : Request)
  : exn + Response :=
  inl (Exn ReadTimeout []).

Definition error_response : Response :=
  mkResponse 500 (lit "Server error '500 Internal Server Error'")
    (inl (lit "Expecting value: line 1 column 1 (char 0)")).

Definition garbled_response : Response :=
  mkResponse 200 [] (inl (lit "Expecting value: line 1 column 1 (char 0)")).

Definition failing_server (log : list Request) (req : Request)
  : exn + Response :=
  inr error_response.

Definition garbled_server (log : list Request) (req : Request)
  : exn + Response :=
  inr garbled_response.

Definition keyless_server (log : list Request) (req : Request)
  : exn + Response :=
  inr done_response.

(** A decoder that refuses the empty upload and reads [doc] from any other,
    every page of it. *)
Definition sample_fitz_open (doc : list Page) (pdf_bytes : list Byte.byte)
  : exn + list (exn + Page) :=
  match pdf_bytes with
  | [] => inl (Exn OtherException (lit "Cannot open empty stream"))
  | _ :: _ => inr (map inr doc)
  end.

(** A decoder that opens a password-protected document: no page of it can be
    loaded.  And one whose document has a third page that cannot be read. *)
Definition locked_fitz_open (pdf_bytes : list Byte.byte)
  : exn + list (exn + Page) :=
  inr [inl (Exn OtherException (lit "document closed or encrypted"))].

Definition torn_fitz_open (pdf_bytes : list Byte.byte)
  : exn + list (exn + Page) :=
  inr [inr (mkPage (lit "Hello")); inr (mkPage []);
       inl (Exn OtherException (lit "cannot load page"));
       inr (mkPage (lit "World"))].

Definition sample_upload : UploadFile :=
  mkUploadFile [Byte.x25; Byte.x50; Byte.x44; Byte.x46].

Definition empty_upload : UploadFile := mkUploadFile [].

Definition sample_repr (e : exn) : pystr :=
  lit "HTTPError('" ++ exc_str e ++ lit "')".

Definition sample_validation_message (v : field_value) : pystr :=
  lit "1 validation error for KumruResponse".

Definition sample_url : pystr := lit "http://ollama:11434".

Definition sample_model : pystr := lit "receptim/kumru-2b".


Definition list_response : Response :=
  mkResponse 200 [] (inr (JNotDict (lit "list"))).


Definition list_server (log : list Request) (req : Request)
  : exn + Response :=
  inr list_response.

(** A scanned document: three pages, none with text. *)
Definition scanned_pdf : list Page :=
  [mkPage []; mkPage (lit " " ++ LF); mkPage LF].

(** ** The router *)

Section Kumru.

(** [os.getenv("OLLAMA_URL", ...)] and [os.getenv("OLLAMA_MODEL_NAME", ...)],
    read once when the module is loaded. *)
Variable OLLAMA_URL : pystr.
Variable MODEL_NAME : pystr.

(** The Ollama server as httpx shows it: what [client.post] does for a
    request, given the requests sent before it: it raises, or returns a
    response. *)
Variable ollama : list Request -> Request -> exn + Response.

(** [fitz.open(stream=pdf_bytes, filetype="pdf")]: it raises, or returns
    the document.  The document is observed through what the loop over it
    meets, page after page: the exception that loading the page or
    [page.get_text("text")] raises, or the page with its text. *)
Variable fitz_open : list Byte.byte -> exn + list (exn + Page).

(** [repr(e)] of an exception. *)
Variable repr_exn : exn -> pystr.

(** [str(e)] of the [ValidationError] pydantic raises for a value that is
    not a [str]. *)
Variable validation_message : field_value -> pystr.

Local Open Scope handler_scope.

Definition OLLAMA_GENERATE_URL : pystr := OLLAMA_URL ++ lit "/api/generate".

(** [await client.post(url, json=payload, timeout=t)] *)
Definition client_post (u : pystr) (payload : Payload) (t : N)
  : M exn Response :=
  fun log =>
    let req := mkRequest u payload t in
    (ollama log req, log ++ [req]).

(** [response.raise_for_status()]: raises unless the status is 2xx. *)
Definition raise_for_status (response : Response) : M exn unit :=
  if (200 <=? resp_status_code response) && (resp_status_code response <=? 299)
  then ret tt
  else raise (Exn HTTPStatusError (resp_status_message response)).

(** [response.json()] *)
Definition json (response : Response) : M exn json_value :=
  match resp_json response with
  | inl msg => raise (Exn JSONDecodeError msg)
  | inr data => ret data
  end.

(** [data.get(key, default)] *)
Definition get (data : json_value) (key : pystr) (default : field_value)
  : M exn field_value :=
  match data with
  | JDict d =>
      match d !! key with
      | Some v => ret v
      | None => ret default
      end
  | JNotDict tyname =>
      raise (Exn AttributeError
               (lit "'" ++ tyname ++ lit "' object has no attribute 'get'"))
  end.

(** [v.strip()] of a value that may not be a [str]. *)
Definition value_strip (v : field_value) : M exn pystr :=
  match v with
  | FStr s => ret (strip s)
  | FOther tyname _ =>
      raise (Exn AttributeError
               (lit "'" ++ tyname ++ lit "' object has no attribute 'strip'"))
  end.

(** [f"{v}"] *)
Definition format_value (v : field_value) : pystr :=
  match v with
  | FStr s => s
  | FOther _ shown => shown
  end.

(** [KumruResponse(kumru_response=v)], validated by pydantic. *)
Definition new_KumruResponse (v : field_value) : M exn KumruResponse :=
  match v with
  | FStr s => ret (mkKumruResponse s)
  | FOther _ _ => raise (Exn ValidationError (validation_message v))
  end.

(** [GET /kumru/health] *)
Definition kumru_health_check : M HTTPException (gmap pystr pystr) :=
  ret {[ lit "status" := lit "Kumru router is healthy" ]}.

(** [POST /llm/kumru/ask] *)
Definition ask_kumru (request : KumruRequest)
  : M HTTPException KumruResponse :=
  let payload := mkPayload MODEL_NAME (question request) false in
  try_except
    (response <- client_post OLLAMA_GENERATE_URL payload 120 ;;
     _ <- raise_for_status response ;;
     data <- json response ;;
     v <- get data (lit "response") (FStr []) ;;
     new_KumruResponse v)
    (fun e =>
       if isinstance_RequestError e
       then raise (mkHTTPException 503
                     (lit "Ollama service is unavailable: " ++ repr_exn e))
       else raise (mkHTTPException 500
                     (lit "An unexpected error occurred: " ++ exc_str e))).

(** The page marker both PDF handlers append:
    [f"\n\n--- Sayfa {page_num} ---\n"]. *)
Definition page_marker (page_num : N) : pystr :=
  LF ++ LF ++ lit "--- Sayfa " ++ str_of_int page_num ++ lit " ---" ++ LF.

(** The prompt of [send_docs_kumru] for a page. *)
Definition docs_prompt (page_num : N) (text : pystr) : pystr :=
  lit "Sayfa " ++ str_of_int page_num ++ lit " içeriği:" ++ LF ++ LF
  ++ text ++ LF ++ LF
  ++ lit "Bu sayfadaki metni çıkar. Kendin hiçbir şey ekleme. Metni olduğu gibi ver. Sakın özetleme sadece tüm metni olduğu gibi çıkar:".

(** The loop [for page_num, page in enumerate(pdf_document, start=1)] of
    [send_docs_kumru], with [full_response] as the accumulator. *)
Fixpoint send_docs_loop (items : list (N * (exn + Page)))
    (full_response : pystr) : M exn pystr :=
  match items with
  | [] => ret full_response
  | (page_num, inl e) :: _ => raise e
  | (page_num, inr page) :: rest =>
      let text := strip (get_text page) in
      if negb (truthy text)
      then send_docs_loop rest full_response
      else
        let payload := mkPayload MODEL_NAME (docs_prompt page_num text) false in
        response <- client_post OLLAMA_GENERATE_URL payload 120 ;;
        _ <- raise_for_status response ;;
        data <- json response ;;
        page_summary <- get data (lit "response") (FStr []) ;;
        send_docs_loop rest
          (full_response ++ page_marker page_num ++ format_value page_summary)
  end.

(** [POST /llm/kumru/send_documents] *)
Definition send_docs_kumru (file : UploadFile)
  : M HTTPException KumruResponse :=
  try_except
    (let pdf_bytes := read file in
     pdf_document <- lift_result (fitz_open pdf_bytes) ;;
     full_response <- send_docs_loop (enumerate 1 pdf_document) [] ;;
     new_KumruResponse (FStr full_response))
    (fun e =>
       raise (mkHTTPException 500 (lit "PDF işleme hatası: " ++ exc_str e))).

(** The prompt of [send_pdf_kumru] for a page with text. *)
Definition pdf_text_prompt (text : pystr) : pystr :=
  lit "Bu sayfadaki metni çıkar:" ++ LF ++ LF ++ text.

(** The prompt of [send_pdf_kumru] for a page without text. *)
Definition pdf_ocr_prompt : pystr :=
  lit "Bu sayfadaki metni çıkar. Sayfa görüntü içeriyorsa görüntüden metin çıkar. "
  ++ lit "Sakın özetleme sadece bu sayfadan metni olduğu gibi çıkar. "
  ++ lit "Eğer sayfa bir görüntü içeriyorsa veya metin okunamıyorsa, ".

(** The text [send_pdf_kumru] puts in place of a failed page. *)
Definition model_error_text (page_num : N) (model_err : exn) : pystr :=
  lit "(Sayfa " ++ str_of_int page_num ++ lit " için model hatası: "
  ++ exc_str model_err ++ lit ")".

(** The loop [for page_num, page in enumerate(pdf_document, start=1)] of
    [send_pdf_kumru]. *)
Fixpoint send_pdf_loop (items : list (N * (exn + Page)))
    (full_response : pystr) : M exn pystr :=
  match items with
  | [] => ret full_response
  | (page_num, inl e) :: _ => raise e
  | (page_num, inr page) :: rest =>
      let text := strip (get_text page) in
      let prompt :=
        if truthy text then pdf_text_prompt text else pdf_ocr_prompt in
      let payload := mkPayload MODEL_NAME prompt false in
      page_text <-
        try_except
          (response <- client_post OLLAMA_GENERATE_URL payload 120 ;;
           _ <- raise_for_status response ;;
           data <- json response ;;
           v <- get data (lit "response") (FStr []) ;;
           value_strip v)
          (fun model_err => ret (model_error_text page_num model_err)) ;;
      send_pdf_loop rest
        (full_response ++ page_marker page_num ++ page_text)
  end.

(** [POST /llm/kumru/send_pdf] *)
Definition send_pdf_kumru (file : UploadFile)
  : M HTTPException KumruResponse :=
  try_except
    (let pdf_bytes := read file in
     pdf_document <- lift_result (fitz_open pdf_bytes) ;;
     full_response <- send_pdf_loop (enumerate 1 pdf_document) [] ;;
     new_KumruResponse (FStr full_response))
    (fun e =>
       raise (mkHTTPException 500 (lit "PDF işleme hatası: " ++ exc_str e))).


(** ** What the handlers are compared with *)

(** The pages the loop reads before the first one that raises, the exception
    of that one, and whether a page was read. *)
Fixpoint readable (items : list (N * (exn + Page))) : list (N * Page) :=
  match items with
  | (n, inr page) :: rest => (n, page) :: readable rest
  | _ => []
  end.

Fixpoint read_error (items : list (N * (exn + Page))) : option exn :=
  match items with
  | [] => None
  | (_, inl e) :: _ => Some e
  | (_, inr _) :: rest => read_error rest
  end.

Definition is_read (p : exn + Page) : bool :=
  match p with
  | inl _ => false
  | inr _ => true
  end.

(** The request [send_docs_kumru] builds for a numbered page text. *)
Definition docs_request (item : N * pystr) : Request :=
  mkRequest OLLAMA_GENERATE_URL
    (mkPayload MODEL_NAME (docs_prompt (fst item) (snd item)) false) 120.

(** The numbered pages with their stripped text, and those with text. *)
Definition stripped_pages (items : list (N * Page)) : list (N * pystr) :=
  map (fun item => (fst item, strip (get_text (snd item)))) items.

Definition nonempty_pages (items : list (N * Page)) : list (N * pystr) :=
  List.filter (fun item => truthy (snd item)) (stripped_pages items).

Definition docs_requests (items : list (N * Page)) : list Request :=
  map docs_request (nonempty_pages items).

(** The request [send_pdf_kumru] builds for a page. *)
Definition pdf_request (page : Page) : Request :=
  let text := strip (get_text page) in
  mkRequest OLLAMA_GENERATE_URL
    (mkPayload MODEL_NAME
       (if truthy text then pdf_text_prompt text else pdf_ocr_prompt) false)
    120.

Definition pdf_requests (items : list (N * Page)) : list Request :=
  map (fun item => pdf_request (snd item)) items.

(** The server's answers to requests sent one after the other. *)
Fixpoint replies (log : list Request) (reqs : list Request)
  : list (exn + Response) :=
  match reqs with
  | [] => []
  | req :: reqs' => ollama log req :: replies (log ++ [req]) reqs'
  end.

(** The outcome of one inference call: what [raise_for_status], [json] and
    [get("response", "")] make of the server's answer. *)
Definition call_outcome (r : exn + Response) : exn + field_value :=
  match r with
  | inl e => inl e
  | inr response =>
      fst ((_ <- raise_for_status response ;;
            data <- json response ;;
            get data (lit "response") (FStr [])) [])
  end.

(** The text [send_pdf_kumru] records for a page, given the server's answer. *)
Definition pdf_page_text (page_num : N) (r : exn + Response) : pystr :=
  match call_outcome r with
  | inl model_err => model_error_text page_num model_err
  | inr v =>
      match fst (value_strip v []) with
      | inl model_err => model_error_text page_num model_err
      | inr page_text => page_text
      end
  end.

Definition pdf_page_texts (log : list Request) (items : list (N * Page))
  : list (N * pystr) :=
  map (fun nr => (fst (fst nr), pdf_page_text (fst (fst nr)) (snd nr)))
    (combine items (replies log (pdf_requests items))).

(** Per-page outputs, each under its marker. *)
Definition aggregate (segments : list (N * pystr)) : pystr :=
  concat (map (fun seg => page_marker (fst seg) ++ snd seg) segments).

(** The status of a failed [/llm/kumru/ask] as the specification words it:
    503 for a network or connection failure, 500 for any other failure, a
    timeout among them. *)
Definition spec_ask_status (e : exn) : N :=
  if isinstance_NetworkError e then 503 else 500.

(** The marker as the specification words it: [--- Page N ---]. *)
Definition spec_page_marker (page_num : N) : pystr :=
  lit "--- Page " ++ str_of_int page_num ++ lit " ---".

(** ** Python strings: facts *)

Example lit_sayfa :
  lit "Sayfa için" = [83; 97; 121; 102; 97; 32; 105; 231; 105; 110].
Proof. reflexivity. Qed.

Example str_of_int_12 : str_of_int 12 = lit "12".
Proof. reflexivity. Qed.

Example strip_example :
  strip (lit "  Hello World " ++ LF) = lit "Hello World".
Proof. reflexivity. Qed.

Arguments lit : simpl never.
Arguments str_of_int : simpl never.



Lemma lstrip_spaces (s : pystr) :
  forallb Py_UNICODE_ISSPACE s = true -> lstrip s = [].
Proof.
  induction s as [|c s IH]; simpl; [reflexivity|].
  destruct (Py_UNICODE_ISSPACE c); simpl; [exact IH | discriminate].
Qed.






(** A text of white space only strips to the empty string. *)
Lemma strip_spaces (s : pystr) :
  forallb Py_UNICODE_ISSPACE s = true -> strip s = [].
Proof.
  intros H. unfold strip. rewrite (lstrip_spaces s H). reflexivity.
Qed.


Lemma enumerate_length {A : Type} (start : N) (l : list A) :
  length (enumerate start l) = length l.
Proof.
  revert start. induction l as [|x l IH]; intros start; simpl;
    [reflexivity | now rewrite IH].
Qed.

(** [enumerate] numbers the element at index [i] with [start + i]. *)
Lemma enumerate_lookup {A : Type} (start : N) (l : list A) (i : nat) (x : A) :
  l !! i = Some x -> enumerate start l !! i = Some (start + N.of_nat i, x).
Proof.
  revert start i. induction l as [|y l IH]; intros start i; [discriminate|].
  destruct i as [|i]; simpl.
  - intros [= ->]. now rewrite N.add_0_r.
  - intros H. rewrite (IH (start + 1) i H). do 2 f_equal. lia.
Qed.

(** ** One inference call *)

Local Open Scope handler_scope.

(** The four lines every handler repeats: the request is logged, and the
    rest of the handler runs on the outcome of the call. *)
Lemma inference_call_run {B : Type} (payload : Payload)
    (k : field_value -> M exn B) (log : list Request) :
  (response <- client_post OLLAMA_GENERATE_URL payload 120 ;;
   _ <- raise_for_status response ;;
   data <- json response ;;
   v <- get data (lit "response") (FStr []) ;;
   k v) log
  = match call_outcome (ollama log (mkRequest OLLAMA_GENERATE_URL payload 120)) with
    | inl e => (inl e, log ++ [mkRequest OLLAMA_GENERATE_URL payload 120])
    | inr v => k v (log ++ [mkRequest OLLAMA_GENERATE_URL payload 120])
    end.
Proof.
  unfold bind at 1. unfold client_post, call_outcome.
  destruct (ollama log _) as [e|response]; [reflexivity|].
  unfold bind, raise_for_status, json.
  destruct (_ && _); [|reflexivity].
  destruct (resp_json response) as [msg|[d|tyname]]; simpl; try reflexivity.
  destruct (d !! lit "response"); reflexivity.
Qed.

(** The outcome of a call, case by case. *)
Lemma call_outcome_raised (e : exn) : call_outcome (inl e) = inl e.
Proof. reflexivity. Qed.

Lemma call_outcome_status (response : Response) :
  (200 <=? resp_status_code response) && (resp_status_code response <=? 299) = false ->
  call_outcome (inr response)
  = inl (Exn HTTPStatusError (resp_status_message response)).
Proof. intros H. unfold call_outcome, bind, raise_for_status. now rewrite H. Qed.

Lemma call_outcome_not_json (response : Response) (msg : pystr) :
  (200 <=? resp_status_code response) && (resp_status_code response <=? 299) = true ->
  resp_json response = inl msg ->
  call_outcome (inr response) = inl (Exn JSONDecodeError msg).
Proof.
  intros H J. unfold call_outcome, bind, raise_for_status, json.
  now rewrite H, J.
Qed.

Lemma call_outcome_dict (response : Response) (d : gmap pystr field_value) :
  (200 <=? resp_status_code response) && (resp_status_code response <=? 299) = true ->
  resp_json response = inr (JDict d) ->
  call_outcome (inr response)
  = inr (default (FStr []) (d !! lit "response")).
Proof.
  intros H J. unfold call_outcome, bind, raise_for_status, json.
  rewrite H, J. simpl. now destruct (d !! lit "response").
Qed.

(** A call that does not fail had a 2xx answer holding a JSON object. *)
Lemma call_outcome_ok (r : exn + Response) (v : field_value) :
  call_outcome r = inr v ->
  exists response d,
    r = inr response
    /\ (200 <=? resp_status_code response) && (resp_status_code response <=? 299) = true
    /\ resp_json response = inr (JDict d)
    /\ v = default (FStr []) (d !! lit "response").
Proof.
  destruct r as [e|response]; [discriminate|].
  destruct ((200 <=? resp_status_code response)
            && (resp_status_code response <=? 299)) eqn:H.
  - destruct (resp_json response) as [msg|[d|tyname]] eqn:J.
    + rewrite (call_outcome_not_json _ _ H J). discriminate.
    + rewrite (call_outcome_dict _ _ H J). intros [= <-].
      exists response, d. auto.
    + unfold call_outcome, bind, raise_for_status, json. rewrite H, J.
      discriminate.
  - rewrite (call_outcome_status _ H). discriminate.
Qed.

(** The [i]-th answer is the server's answer to the [i]-th request after
    the requests before it. *)
Lemma replies_lookup (reqs : list Request) (log : list Request) (i : nat)
    (req : Request) :
  reqs !! i = Some req ->
  replies log reqs !! i = Some (ollama (log ++ take i reqs) req).
Proof.
  revert log i. induction reqs as [|r reqs IH]; intros log i; [discriminate|].
  destruct i as [|i]; simpl.
  - intros [= ->]. now rewrite app_nil_r.
  - intros H. rewrite (IH (log ++ [r]) i H). now rewrite <- app_assoc.
Qed.

Lemma replies_length (reqs : list Request) (log : list Request) :
  length (replies log reqs) = length reqs.
Proof.
  revert log. induction reqs as [|r reqs IH]; intros log; simpl;
    [reflexivity | now rewrite IH].
Qed.

(** ** The loop of [send_docs_kumru] *)

Lemma nonempty_pages_cons (n : N) (page : Page) (rest : list (N * Page)) :
  nonempty_pages ((n, page) :: rest)
  = if truthy (strip (get_text page))
    then (n, strip (get_text page)) :: nonempty_pages rest
    else nonempty_pages rest.
Proof. reflexivity. Qed.

Lemma aggregate_cons (n : N) (t : pystr) (segments : list (N * pystr)) :
  aggregate ((n, t) :: segments) = (page_marker n ++ t) ++ aggregate segments.
Proof. reflexivity. Qed.

Lemma readable_enumerate (start : N) (doc : list Page) :
  readable (enumerate start (map inr doc)) = enumerate start doc.
Proof.
  revert start. induction doc as [|page doc IH]; intros start;
    [reflexivity|].
  cbn [map enumerate readable]. now rewrite IH.
Qed.

Lemma read_error_enumerate (start : N) (doc : list Page) :
  read_error (enumerate start (map inr doc)) = None.
Proof.
  revert start. induction doc as [|page doc IH]; intros start;
    [reflexivity|].
  cbn [map enumerate read_error]. apply IH.
Qed.

(** The loop sends the requests of the pages with text, in order, until a
    call fails or a page cannot be read: either every call succeeds, and the
    outputs are aggregated unless a page raises, or the loop stops at the
    first failing call with its exception. *)
Lemma send_docs_loop_run (items : list (N * (exn + Page))) :
  forall (acc : pystr) (log : list Request),
    (exists vs,
        map call_outcome (replies log (docs_requests (readable items)))
        = map inr vs
        /\ send_docs_loop items acc log
           = (match read_error items with
              | None =>
                  inr (acc ++ aggregate
                                (combine (map fst (nonempty_pages (readable items)))
                                   (map format_value vs)))
              | Some e => inl e
              end,
              log ++ docs_requests (readable items)))
    \/ (exists k e vs,
          map call_outcome (replies log (docs_requests (readable items))) !! k
          = Some (inl e)
          /\ take k (map call_outcome
                       (replies log (docs_requests (readable items))))
             = map inr vs
          /\ send_docs_loop items acc log
             = (inl e, log ++ take (S k) (docs_requests (readable items)))).
Proof.
  induction items as [|[n [err|page]] rest IH]; intros acc log.
  - left. exists []. split; [reflexivity|].
    cbn. unfold ret. now rewrite !app_nil_r.
  - left. exists []. split; [reflexivity|].
    cbn. unfold raise. now rewrite app_nil_r.
  - cbn [readable read_error].
    unfold docs_requests in *. rewrite nonempty_pages_cons.
    cbn [send_docs_loop].
    destruct (truthy (strip (get_text page))) eqn:Ht; cbn [negb]; [|apply IH].
    rewrite inference_call_run. cbn [map replies fst].
    change (mkRequest OLLAMA_GENERATE_URL
              (mkPayload MODEL_NAME (docs_prompt n (strip (get_text page))) false) 120)
      with (docs_request (n, strip (get_text page))).
    set (req := docs_request (n, strip (get_text page))).
    destruct (call_outcome (ollama log req)) as [e|v] eqn:Hv.
    + right. exists 0%nat, e, []. auto.
    + destruct (IH (acc ++ page_marker n ++ format_value v) (log ++ [req]))
        as [(vs & Hvs & Hrun)|(k & e & vs & Hk & Hvs & Hrun)].
      * left. exists (v :: vs). split; [cbn [map]; now rewrite Hvs|].
        rewrite Hrun. cbn [map combine fst]. rewrite ?aggregate_cons.
        destruct (read_error rest); now rewrite <- !app_assoc.
      * right. exists (S k), e, (v :: vs). split; [exact Hk|].
        split; [cbn [take map]; now rewrite Hvs|].
        rewrite Hrun. cbn [take]. now rewrite <- app_assoc.
Qed.

(** The same for a document whose pages are all read. *)
Lemma send_docs_loop_read (doc : list Page) (start : N) :
  forall (acc : pystr) (log : list Request),
    (exists vs,
        map call_outcome (replies log (docs_requests (enumerate start doc)))
        = map inr vs
        /\ send_docs_loop (enumerate start (map inr doc)) acc log
           = (inr (acc ++ aggregate
                             (combine (map fst (nonempty_pages (enumerate start doc)))
                                (map format_value vs))),
              log ++ docs_requests (enumerate start doc)))
    \/ (exists k e vs,
          map call_outcome (replies log (docs_requests (enumerate start doc))) !! k
          = Some (inl e)
          /\ take k (map call_outcome
                       (replies log (docs_requests (enumerate start doc))))
             = map inr vs
          /\ send_docs_loop (enumerate start (map inr doc)) acc log
             = (inl e, log ++ take (S k) (docs_requests (enumerate start doc)))).
Proof.
  intros acc log.
  pose proof (send_docs_loop_run (enumerate start (map inr doc)) acc log) as H.
  rewrite readable_enumerate, read_error_enumerate in H. exact H.
Qed.

(** ** The loop of [send_pdf_kumru] *)

(** The guarded call of a page never raises: it logs the request and yields
    the stripped answer or the text that records the failure. *)
Lemma page_call_run (payload : Payload) (page_num : N) (log : list Request) :
  try_except
    (response <- client_post OLLAMA_GENERATE_URL payload 120 ;;
     _ <- raise_for_status response ;;
     data <- json response ;;
     v <- get data (lit "response") (FStr []) ;;
     value_strip v)
    (fun model_err => ret (E := exn) (model_error_text page_num model_err)) log
  = (inr (pdf_page_text page_num
            (ollama log (mkRequest OLLAMA_GENERATE_URL payload 120))),
     log ++ [mkRequest OLLAMA_GENERATE_URL payload 120]).
Proof.
  unfold try_except. rewrite inference_call_run. unfold pdf_page_text.
  destruct (call_outcome _) as [e|[s|tyname shown]]; reflexivity.
Qed.

Lemma pdf_page_texts_cons (n : N) (page : Page) (rest : list (N * Page))
    (log : list Request) :
  pdf_page_texts log ((n, page) :: rest)
  = (n, pdf_page_text n (ollama log (pdf_request page)))
      :: pdf_page_texts (log ++ [pdf_request page]) rest.
Proof. reflexivity. Qed.

(** The loop sends one request per page it reads and raises only when a
    page cannot be read. *)
Lemma send_pdf_loop_run (items : list (N * (exn + Page))) :
  forall (acc : pystr) (log : list Request),
    send_pdf_loop items acc log
    = (match read_error items with
       | None => inr (acc ++ aggregate (pdf_page_texts log (readable items)))
       | Some e => inl e
       end,
       log ++ pdf_requests (readable items)).
Proof.
  induction items as [|[n [err|page]] rest IH]; intros acc log.
  - cbn. unfold ret. now rewrite !app_nil_r.
  - cbn. unfold raise. now rewrite app_nil_r.
  - cbn [send_pdf_loop readable read_error]. unfold bind at 1.
    rewrite page_call_run. rewrite IH, pdf_page_texts_cons.
    unfold pdf_requests. cbn [map snd]. unfold pdf_request at 2 4.
    rewrite ?aggregate_cons.
    destruct (read_error rest); now rewrite <- !app_assoc.
Qed.

Lemma pdf_page_texts_length (items : list (N * Page)) (log : list Request) :
  length (pdf_page_texts log items) = length items.
Proof.
  unfold pdf_page_texts, pdf_requests.
  rewrite length_map, length_combine, replies_length, length_map. lia.
Qed.

Lemma pdf_page_texts_numbers (items : list (N * Page)) (log : list Request) :
  map fst (pdf_page_texts log items) = map fst items.
Proof.
  revert log. induction items as [|[n page] rest IH]; intros log;
    [reflexivity|].
  rewrite pdf_page_texts_cons. cbn [map fst]. now rewrite IH.
Qed.

(** ** The handlers, run *)

Lemma send_docs_kumru_run (file : UploadFile) (log : list Request) :
  send_docs_kumru file log
  = match fitz_open (read file) with
    | inl e =>
        (inl (mkHTTPException 500 (lit "PDF işleme hatası: " ++ exc_str e)), log)
    | inr doc =>
        match send_docs_loop (enumerate 1 doc) [] log with
        | (inl e, log') =>
            (inl (mkHTTPException 500 (lit "PDF işleme hatası: " ++ exc_str e)),
             log')
        | (inr full_response, log') =>
            (inr (mkKumruResponse full_response), log')
        end
    end.
Proof.
  unfold send_docs_kumru, try_except, bind, lift_result.
  destruct (fitz_open (read file)) as [e|doc]; [reflexivity|].
  destruct (send_docs_loop _ _ _) as [[e|r] log']; reflexivity.
Qed.

Lemma send_pdf_kumru_run (file : UploadFile) (log : list Request) :
  send_pdf_kumru file log
  = match fitz_open (read file) with
    | inl e =>
        (inl (mkHTTPException 500 (lit "PDF işleme hatası: " ++ exc_str e)), log)
    | inr doc =>
        (match read_error (enumerate 1 doc) with
         | None =>
             inr (mkKumruResponse
                    (aggregate (pdf_page_texts log (readable (enumerate 1 doc)))))
         | Some e =>
             inl (mkHTTPException 500 (lit "PDF işleme hatası: " ++ exc_str e))
         end,
         log ++ pdf_requests (readable (enumerate 1 doc)))
    end.
Proof.
  unfold send_pdf_kumru, try_except, bind, lift_result.
  destruct (fitz_open (read file)) as [e|doc]; [reflexivity|].
  rewrite send_pdf_loop_run. now destruct (read_error (enumerate 1 doc)).
Qed.

(** [send_pdf_kumru] for a document whose pages are all read. *)
Lemma send_pdf_kumru_read (file : UploadFile) (doc : list Page)
    (log : list Request) :
  fitz_open (read file) = inr (map inr doc) ->
  send_pdf_kumru file log
  = (inr (mkKumruResponse (aggregate (pdf_page_texts log (enumerate 1 doc)))),
     log ++ pdf_requests (enumerate 1 doc)).
Proof.
  intros Hopen. rewrite send_pdf_kumru_run, Hopen.
  now rewrite readable_enumerate, read_error_enumerate.
Qed.

Lemma ask_kumru_run (request : KumruRequest) (log : list Request) :
  ask_kumru request log
  = let req := mkRequest OLLAMA_GENERATE_URL
                 (mkPayload MODEL_NAME (question request) false) 120 in
    (match call_outcome (ollama log req) with
     | inl e =>
         if isinstance_RequestError e
         then inl (mkHTTPException 503
                     (lit "Ollama service is unavailable: " ++ repr_exn e))
         else inl (mkHTTPException 500
                     (lit "An unexpected error occurred: " ++ exc_str e))
     | inr (FStr s) => inr (mkKumruResponse s)
     | inr (FOther tyname shown) =>
         inl (mkHTTPException 500
                (lit "An unexpected error occurred: "
                 ++ validation_message (FOther tyname shown)))
     end,
     log ++ [req]).
Proof.
  unfold ask_kumru, try_except. rewrite inference_call_run. cbv zeta.
  destruct (call_outcome _) as [e|[s|tyname shown]]; try reflexivity.
  unfold raise. now destruct (isinstance_RequestError e).
Qed.

(** ** Numbering *)

Lemma pdf_requests_enumerate (start : N) (doc : list Page) :
  pdf_requests (enumerate start doc) = map pdf_request doc.
Proof.
  revert start. induction doc as [|page doc IH]; intros start;
    [reflexivity|].
  unfold pdf_requests in *. cbn [enumerate map snd]. now rewrite IH.
Qed.




Lemma pdf_page_texts_lookup (items : list (N * Page)) :
  forall (log : list Request) (i : nat) (n : N) (page : Page),
    items !! i = Some (n, page) ->
    pdf_page_texts log items !! i
    = Some (n, pdf_page_text n
                 (ollama (log ++ take i (pdf_requests items)) (pdf_request page))).
Proof.
  induction items as [|[m p] rest IH]; intros log i n page; [discriminate|].
  rewrite pdf_page_texts_cons. destruct i as [|i]; cbn [lookup list_lookup].
  - intros [= -> ->]. cbn [take]. now rewrite app_nil_r.
  - intros H. rewrite (IH _ _ _ _ H). unfold pdf_requests.
    cbn [map take snd]. now rewrite <- app_assoc.
Qed.

(** A page that [send_docs_kumru] sends is a page of the document with
    text, under its 1-indexed number. *)
Lemma nonempty_pages_lookup (doc : list Page) :
  forall (start : N) (n : N) (t : pystr),
    In (n, t) (nonempty_pages (enumerate start doc)) ->
    exists (i : nat) (page : Page),
      doc !! i = Some page /\ n = start + N.of_nat i
      /\ t = strip (get_text page) /\ truthy t = true.
Proof.
  induction doc as [|p doc IH]; intros start n t; [intros []|].
  cbn [enumerate]. rewrite nonempty_pages_cons.
  destruct (truthy (strip (get_text p))) eqn:Ht.
  - intros [[= <- <-]|H].
    + exists 0%nat, p. rewrite N.add_0_r. auto.
    + destruct (IH _ _ _ H) as (i & page & Hi & -> & -> & Htr).
      exists (S i), page. repeat split; [exact Hi | lia | exact Htr].
  - intros H. destruct (IH _ _ _ H) as (i & page & Hi & -> & -> & Htr).
    exists (S i), page. repeat split; [exact Hi | lia | exact Htr].
Qed.

Lemma stripped_pages_enumerate (start : N) (doc : list Page) :
  stripped_pages (enumerate start doc)
  = enumerate start (map (fun page => strip (get_text page)) doc).
Proof.
  revert start. induction doc as [|page doc IH]; intros start;
    [reflexivity|].
  unfold stripped_pages in *. cbn [enumerate map fst snd]. now rewrite IH.
Qed.

Lemma map_inr_inj {E A : Type} (l1 l2 : list A) :
  map (@inr E A) l1 = map inr l2 -> l1 = l2.
Proof.
  revert l2. induction l1 as [|x l1 IH]; intros [|y l2]; simpl;
    try discriminate; [reflexivity|].
  intros [= -> H]. now rewrite (IH _ H).
Qed.

Lemma lookup_map_inr {E A : Type} (vs : list A) (i : nat) (e : E) :
  map inr vs !! i = Some (inl e) -> False.
Proof.
  revert i. induction vs as [|v vs IH]; intros [|i]; simpl;
    try discriminate. apply IH.
Qed.

Lemma outcomes_lookup (reqs : list Request) (log : list Request) (i : nat)
    (req : Request) :
  reqs !! i = Some req ->
  map call_outcome (replies log reqs) !! i
  = Some (call_outcome (ollama (log ++ take i reqs) req)).
Proof.
  revert log i. induction reqs as [|r reqs IH]; intros log i; [discriminate|].
  destruct i as [|i]; simpl.
  - intros [= ->]. now rewrite app_nil_r.
  - intros H. rewrite (IH (log ++ [r]) i H). now rewrite <- app_assoc.
Qed.

Lemma hello_world_nonempty :
  nonempty_pages (enumerate 1 hello_world_pdf)
  = [(2, lit "Hello"); (4, lit "World")].
Proof. vm_compute. reflexivity. Qed.

(** ** [POST /llm/kumru/send_documents] *)

(** C1: [send_docs_kumru] issues calls only for the pages whose stripped text
    is not empty, one each and in page order (the log grows by a prefix of
    their requests, the whole of it when no call fails); when every call
    succeeds the result is the outputs of exactly these pages, each under its
    marker.  For the pages [empty, "Hello", empty, "World"] that is two calls
    and the markers of pages 2 and 4, in that order, and no others. *)
Theorem send_documents_skips_empty_pages
    (file : UploadFile) (doc : list Page) (log : list Request) :
  fitz_open (read file) = inr (map inr doc) ->
  nonempty_pages (enumerate 1 doc)
  = List.filter (fun item => truthy (snd item))
      (enumerate 1 (map (fun page => strip (get_text page)) doc))
  /\ (exists k,
         snd (send_docs_kumru file log)
         = log ++ take k (map docs_request (nonempty_pages (enumerate 1 doc))))
  /\ (forall vs,
         map call_outcome
           (replies log (map docs_request (nonempty_pages (enumerate 1 doc))))
         = map inr vs ->
         send_docs_kumru file log
         = (inr (mkKumruResponse
                   (aggregate (combine (map fst (nonempty_pages (enumerate 1 doc)))
                                       (map format_value vs)))),
            log ++ map docs_request (nonempty_pages (enumerate 1 doc))))
  /\ (doc = hello_world_pdf ->
      forall v2 v4,
        call_outcome (ollama log (docs_request (2, lit "Hello"))) = inr v2 ->
        call_outcome (ollama (log ++ [docs_request (2, lit "Hello")])
                        (docs_request (4, lit "World"))) = inr v4 ->
        send_docs_kumru file log
        = (inr (mkKumruResponse
                  (page_marker 2 ++ format_value v2
                   ++ page_marker 4 ++ format_value v4)),
           log ++ [docs_request (2, lit "Hello"); docs_request (4, lit "World")])).
Proof.
  intros Hopen.
  assert (Hall : forall vs,
             map call_outcome
               (replies log (map docs_request (nonempty_pages (enumerate 1 doc))))
             = map inr vs ->
             send_docs_kumru file log
             = (inr (mkKumruResponse
                       (aggregate (combine (map fst (nonempty_pages (enumerate 1 doc)))
                                           (map format_value vs)))),
                log ++ map docs_request (nonempty_pages (enumerate 1 doc)))).
  { intros vs Hvs. rewrite send_docs_kumru_run, Hopen.
    destruct (send_docs_loop_read doc 1 [] log)
      as [(ws & Hws & Hrun)|(k & e & ws & Hk & _ & _)];
      unfold docs_requests in *.
    - rewrite Hrun. rewrite Hvs in Hws. now rewrite (map_inr_inj _ _ Hws).
    - rewrite Hvs in Hk. rewrite list_lookup_fmap in Hk.
      destruct (vs !! k); discriminate. }
  split; [|split; [|split]].
  - unfold nonempty_pages. now rewrite stripped_pages_enumerate.
  - rewrite send_docs_kumru_run, Hopen.
    destruct (send_docs_loop_read doc 1 [] log)
      as [(ws & _ & Hrun)|(k & e & ws & _ & _ & Hrun)];
      unfold docs_requests in *; rewrite Hrun; cbn [snd].
    + exists (length (map docs_request (nonempty_pages (enumerate 1 doc)))).
      now rewrite firstn_all.
    + now exists (S k).
  - exact Hall.
  - intros -> v2 v4 H2 H4.
    rewrite (Hall [v2; v4]).
    + rewrite hello_world_nonempty. cbn [map combine fst].
      rewrite !aggregate_cons. unfold aggregate. cbn [map concat].
      now rewrite app_nil_r, <- !app_assoc.
    + rewrite hello_world_nonempty. cbn [map replies]. now rewrite H2, H4.
Qed.

(** C5: in [send_docs_kumru], when a call the handler issued fails, the
    request ends with an [HTTPException] of status 500 that carries the
    failure, and with no [KumruResponse]: what was aggregated for the pages
    before is not returned. *)
Theorem send_documents_call_failure
    (file : UploadFile) (doc : list Page) (log : list Request)
    (i : nat) (req : Request) (e : exn) :
  fitz_open (read file) = inr (map inr doc) ->
  drop (length log) (snd (send_docs_kumru file log)) !! i = Some req ->
  call_outcome
    (ollama (log ++ take i (drop (length log) (snd (send_docs_kumru file log))))
       req) = inl e ->
  fst (send_docs_kumru file log)
  = inl (mkHTTPException 500 (lit "PDF işleme hatası: " ++ exc_str e))
  /\ http_status (fst (send_docs_kumru file log)) = 500.
Proof.
  intros Hopen. rewrite send_docs_kumru_run, Hopen.
  destruct (send_docs_loop_read doc 1 [] log)
    as [(vs & Hvs & Hrun)|(k & e' & vs & Hk & Hvs & Hrun)];
    rewrite Hrun; cbn [snd fst]; rewrite drop_app_length; intros Hi He.
  - exfalso. pose proof (outcomes_lookup _ log _ _ Hi) as Hr.
    rewrite He, Hvs in Hr. exact (lookup_map_inr _ _ _ Hr).
  - assert (Hlt : (i < S k)%nat).
    { apply lookup_lt_Some in Hi. rewrite length_take in Hi. lia. }
    rewrite lookup_take_lt in Hi by exact Hlt.
    rewrite take_take in He. replace (i `min` S k)%nat with i in He by lia.
    pose proof (outcomes_lookup _ log _ _ Hi) as Hr. rewrite He in Hr.
    destruct (decide (i = k)) as [->|Hne].
    + rewrite Hk in Hr. injection Hr as ->. split; reflexivity.
    + exfalso. apply (lookup_map_inr vs i e).
      rewrite <- Hvs, lookup_take_lt by lia. exact Hr.
Qed.

(** C8: when the uploaded bytes do not decode as a PDF, both PDF handlers end
    with an [HTTPException] of status 500 whose detail is a readable text
    with the decoder's message, and no outbound call is issued: the log is
    unchanged. *)
Theorem pdf_decode_failure
    (file : UploadFile) (e : exn) (log : list Request) :
  fitz_open (read file) = inl e ->
  send_docs_kumru file log
  = (inl (mkHTTPException 500 (lit "PDF işleme hatası: " ++ exc_str e)), log)
  /\ send_pdf_kumru file log
     = (inl (mkHTTPException 500 (lit "PDF işleme hatası: " ++ exc_str e)), log)
  /\ http_status (fst (send_docs_kumru file log)) = 500
  /\ http_status (fst (send_pdf_kumru file log)) = 500.
Proof.
  intros Hopen. rewrite send_docs_kumru_run, send_pdf_kumru_run, Hopen.
  repeat split.
Qed.

(** ** [POST /llm/kumru/send_pdf] *)

Lemma enumerate_In {A : Type} (l : list A) :
  forall (start n : N) (x : A),
    In (n, x) (enumerate start l) ->
    exists i : nat, l !! i = Some x /\ n = start + N.of_nat i.
Proof.
  induction l as [|y l IH]; intros start n x; [intros []|].
  cbn [enumerate]. intros [[= <- <-]|H].
  - exists 0%nat. rewrite N.add_0_r. auto.
  - destruct (IH _ _ _ H) as (i & Hi & ->). exists (S i). split; [exact Hi | lia].
Qed.


(** C4: in [send_pdf_kumru] a failing call does not end the request.  The
    handler answers with one segment per page; the segment of a page whose
    call failed holds [(Sayfa N için model hatası: reason)], with [N] the
    page's number and [reason] the [str()] of the exception, the segment of
    a page whose call gave a [str] holds that answer, stripped; every page
    gets its call, after a failure as well. *)
Theorem send_pdf_isolates_failures
    (file : UploadFile) (doc : list Page) (log : list Request) :
  fitz_open (read file) = inr (map inr doc) ->
  send_pdf_kumru file log
  = (inr (mkKumruResponse (aggregate (pdf_page_texts log (enumerate 1 doc)))),
     log ++ map pdf_request doc)
  /\ map fst (pdf_page_texts log (enumerate 1 doc))
     = map fst (enumerate 1 doc)
  /\ (forall (i : nat) (page : Page),
         doc !! i = Some page ->
         exists page_text,
           pdf_page_texts log (enumerate 1 doc) !! i
           = Some (1 + N.of_nat i, page_text)
           /\ (forall model_err,
                  call_outcome
                    (ollama (log ++ take i (map pdf_request doc))
                       (pdf_request page)) = inl model_err ->
                  page_text
                  = lit "(Sayfa " ++ str_of_int (1 + N.of_nat i)
                    ++ lit " için model hatası: " ++ exc_str model_err
                    ++ lit ")")
           /\ (forall s,
                  call_outcome
                    (ollama (log ++ take i (map pdf_request doc))
                       (pdf_request page)) = inr (FStr s) ->
                  page_text = strip s)).
Proof.
  intros Hopen. rewrite (send_pdf_kumru_read _ _ _ Hopen).
  rewrite pdf_requests_enumerate.
  split; [reflexivity|]. split; [apply pdf_page_texts_numbers|].
  intros i page Hi.
  pose proof (enumerate_lookup 1 doc i page Hi) as Hn.
  pose proof (pdf_page_texts_lookup _ log _ _ _ Hn) as Ht.
  rewrite pdf_requests_enumerate in Ht.
  eexists. split; [exact Ht|].
  unfold pdf_page_text. split.
  - intros model_err ->. reflexivity.
  - intros s ->. reflexivity.
Qed.

(** ** The page marker *)

(** C3, amended: in every result of [send_docs_kumru] and [send_pdf_kumru]
    each per-page output comes after the literal marker
    [\n\n--- Sayfa N ---\n], where [N] is the decimal 1-indexed number of
    the page in the document.  The result of [send_docs_kumru] is made of one
    such segment per page with text, in page order, holding the output of
    that page's call; the result of [send_pdf_kumru] is made of one segment
    per page, the one at index [i] numbered [1 + i] and holding the text
    recorded for that page. *)
Theorem page_marker_is_sayfa
    (file : UploadFile) (doc : list Page) (log log' : list Request)
    (r : KumruResponse) :
  fitz_open (read file) = inr (map inr doc) ->
  (send_docs_kumru file log = (inr r, log') ->
   exists vs : list field_value,
     map call_outcome
       (replies log (map docs_request (nonempty_pages (enumerate 1 doc))))
     = map inr vs
     /\ kumru_response r
        = concat (map (fun seg =>
                         (LF ++ LF ++ lit "--- Sayfa " ++ str_of_int (fst seg)
                          ++ lit " ---" ++ LF) ++ snd seg)
                    (combine (map fst (nonempty_pages (enumerate 1 doc)))
                       (map format_value vs))))
  /\ (send_pdf_kumru file log = (inr r, log') ->
      kumru_response r
      = concat (map (fun seg =>
                       (LF ++ LF ++ lit "--- Sayfa " ++ str_of_int (fst seg)
                        ++ lit " ---" ++ LF) ++ snd seg)
                  (pdf_page_texts log (enumerate 1 doc))))
  /\ nonempty_pages (enumerate 1 doc)
     = List.filter (fun item => truthy (snd item))
         (enumerate 1 (map (fun page => strip (get_text page)) doc))
  /\ length (pdf_page_texts log (enumerate 1 doc)) = length doc
  /\ (forall (i : nat) (page : Page),
         doc !! i = Some page ->
         pdf_page_texts log (enumerate 1 doc) !! i
         = Some (1 + N.of_nat i,
                 pdf_page_text (1 + N.of_nat i)
                   (ollama (log ++ take i (map pdf_request doc))
                      (pdf_request page)))).
Proof.
  intros Hopen. split; [|split; [|split; [|split]]].
  - intros Hrun. rewrite send_docs_kumru_run, Hopen in Hrun.
    destruct (send_docs_loop_read doc 1 [] log)
      as [(vs & Hvs & Hloop)|(k & e & vs & _ & _ & Hloop)];
      rewrite Hloop in Hrun; [|discriminate].
    injection Hrun as <- _. exists vs. split; [exact Hvs | reflexivity].
  - intros Hrun. rewrite (send_pdf_kumru_read _ _ _ Hopen) in Hrun.
    injection Hrun as <- _. reflexivity.
  - unfold nonempty_pages. now rewrite stripped_pages_enumerate.
  - now rewrite pdf_page_texts_length, enumerate_length.
  - intros i page Hi.
    pose proof (enumerate_lookup 1 doc i page Hi) as Hn.
    pose proof (pdf_page_texts_lookup _ log _ _ _ Hn) as Ht.
    now rewrite pdf_requests_enumerate in Ht.
Qed.

(** ** White space *)


(** ** [POST /llm/kumru/ask] *)

(** Network failures and timeouts are both [RequestError]s. *)
Lemma network_or_timeout_is_request_error (e : exn) :
  isinstance_NetworkError e = true \/ isinstance_TimeoutException e = true ->
  isinstance_RequestError e = true.
Proof.
  unfold isinstance_NetworkError, isinstance_TimeoutException,
    isinstance_RequestError.
  destruct (exc_type e); intros [H|H]; try reflexivity; discriminate.
Qed.

(** C6, amended: in [ask_kumru] a failure of the outbound call that httpx
    raises as a [RequestError] (a network or connection failure, and a
    timeout as well) gives status 503; any other exception of the call, among
    them a status that is not 2xx and a body that is not JSON, gives status
    500 with the [str()] of the exception in the detail. *)
Theorem ask_error_status (request : KumruRequest) (log : list Request) :
  let req := mkRequest OLLAMA_GENERATE_URL
               (mkPayload MODEL_NAME (question request) false) 120 in
  (forall e,
      ollama log req = inl e ->
      isinstance_NetworkError e = true \/ isinstance_TimeoutException e = true
      \/ isinstance_RequestError e = true ->
      ask_kumru request log
      = (inl (mkHTTPException 503
                (lit "Ollama service is unavailable: " ++ repr_exn e)),
         log ++ [req]))
  /\ (forall e,
         call_outcome (ollama log req) = inl e ->
         isinstance_RequestError e = false ->
         ask_kumru request log
         = (inl (mkHTTPException 500
                   (lit "An unexpected error occurred: " ++ exc_str e)),
            log ++ [req]))
  /\ (forall response,
         ollama log req = inr response ->
         (200 <=? resp_status_code response)
         && (resp_status_code response <=? 299) = false ->
         ask_kumru request log
         = (inl (mkHTTPException 500
                   (lit "An unexpected error occurred: "
                    ++ resp_status_message response)),
            log ++ [req]))
  /\ (forall response msg,
         ollama log req = inr response ->
         (200 <=? resp_status_code response)
         && (resp_status_code response <=? 299) = true ->
         resp_json response = inl msg ->
         ask_kumru request log
         = (inl (mkHTTPException 500
                   (lit "An unexpected error occurred: " ++ msg)),
            log ++ [req])).
Proof.
  cbv zeta. split; [|split; [|split]].
  - intros e He Hcls. rewrite ask_kumru_run. cbv zeta. rewrite He.
    cbn [call_outcome].
    assert (Hreq : isinstance_RequestError e = true).
    { destruct Hcls as [H|[H|H]]; [| |exact H];
        apply network_or_timeout_is_request_error; auto. }
    now rewrite Hreq.
  - intros e He Hcls. rewrite ask_kumru_run. cbv zeta. now rewrite He, Hcls.
  - intros response He Hst. rewrite ask_kumru_run. cbv zeta.
    now rewrite He, (call_outcome_status _ Hst).
  - intros response msg He Hst Hjs. rewrite ask_kumru_run. cbv zeta.
    now rewrite He, (call_outcome_not_json _ _ Hst Hjs).
Qed.

(** C7: [ask_kumru] issues exactly one outbound call, whose JSON body has the
    question as prompt and [stream] false; when the answer is a 2xx with a
    JSON object, a [str] under [response] is returned as it is, and the empty
    string is returned when the object has no [response]. *)
Theorem ask_one_call (request : KumruRequest) (log : list Request) :
  let req := mkRequest OLLAMA_GENERATE_URL
               (mkPayload MODEL_NAME (question request) false) 120 in
  snd (ask_kumru request log) = log ++ [req]
  /\ prompt (json_body req) = question request
  /\ stream (json_body req) = false
  /\ (forall response d,
         ollama log req = inr response ->
         (200 <=? resp_status_code response)
         && (resp_status_code response <=? 299) = true ->
         resp_json response = inr (JDict d) ->
         (forall s,
             d !! lit "response" = Some (FStr s) ->
             fst (ask_kumru request log) = inr (mkKumruResponse s))
         /\ (d !! lit "response" = None ->
             fst (ask_kumru request log) = inr (mkKumruResponse []))).
Proof.
  cbv zeta. rewrite ask_kumru_run. cbv zeta. cbn [snd fst].
  split; [reflexivity|]. split; [reflexivity|]. split; [reflexivity|].
  intros response d He Hst Hjs.
  rewrite He, (call_outcome_dict _ _ Hst Hjs).
  split; [intros s Hs | intros Hs]; now rewrite Hs.
Qed.

(** ** [GET /kumru/health] *)

(** C9: [kumru_health_check] returns the same body whatever has happened
    before, with status 200, and issues no call. *)
Theorem health_always_ok (log : list Request) :
  kumru_health_check log
  = (inr {[ lit "status" := lit "Kumru router is healthy" ]}, log)
  /\ http_status (fst (kumru_health_check log)) = 200.
Proof. split; reflexivity. Qed.

(** ** Further properties of the handlers *)

Lemma call_outcome_not_dict (response : Response) (tyname : pystr) :
  (200 <=? resp_status_code response) && (resp_status_code response <=? 299) = true ->
  resp_json response = inr (JNotDict tyname) ->
  call_outcome (inr response)
  = inl (Exn AttributeError
           (lit "'" ++ tyname ++ lit "' object has no attribute 'get'")).
Proof.
  intros H J. unfold call_outcome, bind, raise_for_status, json.
  now rewrite H, J.
Qed.

(** What [raise_for_status], [json] and [get] raise is no [RequestError]. *)
Lemma call_outcome_error_class (response : Response) (e : exn) :
  call_outcome (inr response) = inl e -> isinstance_RequestError e = false.
Proof.
  destruct ((200 <=? resp_status_code response)
            && (resp_status_code response <=? 299)) eqn:H.
  - destruct (resp_json response) as [msg|[d|tyname]] eqn:J.
    + rewrite (call_outcome_not_json _ _ H J). now intros [= <-].
    + rewrite (call_outcome_dict _ _ H J). discriminate.
    + rewrite (call_outcome_not_dict _ _ H J). now intros [= <-].
  - rewrite (call_outcome_status _ H). now intros [= <-].
Qed.

Lemma lookup_map_inr_Some {E A : Type} (vs : list A) (j : nat) (o : E + A) :
  map inr vs !! j = Some o -> exists v, o = inr v.
Proof.
  revert j. induction vs as [|v vs IH]; intros [|j]; simpl;
    try discriminate.
  - intros [= <-]. now exists v.
  - apply IH.
Qed.

Lemma send_docs_loop_appends (items : list (N * (exn + Page))) (acc : pystr)
    (log : list Request) :
  exists k,
    snd (send_docs_loop items acc log)
    = log ++ take k (docs_requests (readable items)).
Proof.
  destruct (send_docs_loop_run items acc log)
    as [(vs & _ & Hrun)|(k & e & vs & _ & _ & Hrun)]; rewrite Hrun; cbn [snd].
  - exists (length (docs_requests (readable items))). now rewrite firstn_all.
  - now exists (S k).
Qed.

Lemma read_error_is_read (start : N) (pages : list (exn + Page)) :
  forallb is_read pages
  = match read_error (enumerate start pages) with
    | None => true
    | Some _ => false
    end.
Proof.
  revert start. induction pages as [|[e|page] pages IH]; intros start;
    [reflexivity | reflexivity |].
  cbn [forallb is_read enumerate read_error]. apply IH.
Qed.

Lemma readable_before (before : list Page) (e : exn)
    (after : list (exn + Page)) (start : N) :
  readable (enumerate start (map inr before ++ inl e :: after))
  = enumerate start before
  /\ read_error (enumerate start (map inr before ++ inl e :: after)) = Some e.
Proof.
  revert start. induction before as [|page before IH]; intros start;
    [split; reflexivity|].
  cbn [map app enumerate readable read_error].
  destruct (IH (start + 1)) as [-> ->]. split; reflexivity.
Qed.

(** X1: whatever the decoder and the server do, [send_docs_kumru] ends with
    a [KumruResponse] or with status 500 and the detail
    [PDF işleme hatası: str(e)]: it never answers 503, a connection failure
    included. *)
Theorem send_documents_never_503 (file : UploadFile) (log : list Request) :
  (exists r, fst (send_docs_kumru file log) = inr r)
  \/ (exists e,
         fst (send_docs_kumru file log)
         = inl (mkHTTPException 500 (lit "PDF işleme hatası: " ++ exc_str e))).
Proof.
  rewrite send_docs_kumru_run.
  destruct (fitz_open (read file)) as [e|doc]; [right; now exists e|].
  destruct (send_docs_loop _ _ _) as [[e|r] log']; cbn [fst].
  - right. now exists e.
  - left. now exists (mkKumruResponse r).
Qed.

(** X2: the status of [send_pdf_kumru] depends on the PDF library alone:
    500 when [fitz.open] raises or when a page cannot be loaded or read, 200
    otherwise, whatever the server answers. *)
Theorem send_pdf_status (file : UploadFile) (log : list Request) :
  http_status (fst (send_pdf_kumru file log))
  = match fitz_open (read file) with
    | inl _ => 500
    | inr pages => if forallb is_read pages then 200 else 500
    end.
Proof.
  rewrite send_pdf_kumru_run.
  destruct (fitz_open (read file)) as [e|pages]; [reflexivity|].
  rewrite (read_error_is_read 1 pages).
  now destruct (read_error (enumerate 1 pages)).
Qed.

(** X3: [ask_kumru] answers 200, 500 or 503, and 503 exactly when
    [client.post] itself raised a [RequestError]: a bad status, a body that is
    not JSON or not an object, and a value that is no [str] all give 500. *)
Theorem ask_503_iff_post_raised (request : KumruRequest) (log : list Request) :
  (http_status (fst (ask_kumru request log)) = 200
   \/ http_status (fst (ask_kumru request log)) = 500
   \/ http_status (fst (ask_kumru request log)) = 503)
  /\ (http_status (fst (ask_kumru request log)) = 503
      <-> exists e,
            ollama log (mkRequest OLLAMA_GENERATE_URL
                          (mkPayload MODEL_NAME (question request) false) 120)
            = inl e
            /\ isinstance_RequestError e = true).
Proof.
  rewrite ask_kumru_run. cbv zeta. cbn [fst].
  destruct (ollama log _) as [e|response] eqn:Ho.
  - cbn [call_outcome]. destruct (isinstance_RequestError e) eqn:Hc;
      cbn [http_status status_code].
    + split; [auto|]. split; [now exists e | reflexivity].
    + split; [auto|]. split; [discriminate|].
      intros (e' & [= <-] & He'). congruence.
  - destruct (call_outcome (inr response)) as [e|[s|tyname shown]] eqn:Hc.
    + rewrite (call_outcome_error_class _ _ Hc). cbn [http_status status_code].
      split; [auto|]. split; [discriminate | now intros (e' & [=] & _)].
    + cbn [http_status]. split; [auto|].
      split; [discriminate | now intros (e' & [=] & _)].
    + cbn [http_status status_code]. split; [auto|].
      split; [discriminate | now intros (e' & [=] & _)].
Qed.

(** X4: when the server answers 2xx with JSON that is not an object,
    [data.get] raises and [ask_kumru] answers 500 with the text of the
    [AttributeError]. *)
Theorem ask_json_not_object
    (request : KumruRequest) (log : list Request)
    (response : Response) (tyname : pystr) :
  ollama log (mkRequest OLLAMA_GENERATE_URL
                (mkPayload MODEL_NAME (question request) false) 120)
  = inr response ->
  (200 <=? resp_status_code response) && (resp_status_code response <=? 299) = true ->
  resp_json response = inr (JNotDict tyname) ->
  ask_kumru request log
  = (inl (mkHTTPException 500
            (lit "An unexpected error occurred: "
             ++ (lit "'" ++ tyname ++ lit "' object has no attribute 'get'"))),
     log ++ [mkRequest OLLAMA_GENERATE_URL
               (mkPayload MODEL_NAME (question request) false) 120]).
Proof.
  intros Ho Hst Hjs. rewrite ask_kumru_run. cbv zeta.
  now rewrite Ho, (call_outcome_not_dict _ _ Hst Hjs).
Qed.


(** X6: for a document none of whose pages has text (white space at most),
    [send_docs_kumru] answers 200 with the empty string and issues no call. *)
Theorem send_documents_no_text
    (file : UploadFile) (doc : list Page) (log : list Request) :
  fitz_open (read file) = inr (map inr doc) ->
  Forall (fun page => forallb Py_UNICODE_ISSPACE (get_text page) = true) doc ->
  send_docs_kumru file log = (inr (mkKumruResponse []), log).
Proof.
  intros Hopen Hblank. rewrite send_docs_kumru_run, Hopen. clear Hopen.
  assert (Hloop : forall start acc,
             send_docs_loop (enumerate start (map inr doc)) acc log
             = (inr acc, log)).
  { induction Hblank as [|page doc Hpage _ IH]; intros start acc;
      [reflexivity|].
    cbn [map enumerate send_docs_loop]. rewrite (strip_spaces _ Hpage).
    cbn [truthy negb]. apply IH. }
  now rewrite Hloop.
Qed.

(** X7: every request a handler issues goes to [OLLAMA_GENERATE_URL] with the
    configured model, [stream] false and a timeout of 120 seconds, and the
    handlers only add to the log. *)
Theorem requests_are_uniform
    (request : KumruRequest) (file : UploadFile) (log : list Request) :
  let uniform := fun req : Request =>
    url req = OLLAMA_GENERATE_URL
    /\ model (json_body req) = MODEL_NAME
    /\ stream (json_body req) = false
    /\ timeout req = 120 in
  (exists sent, snd (ask_kumru request log) = log ++ sent /\ Forall uniform sent)
  /\ (exists sent,
         snd (send_docs_kumru file log) = log ++ sent /\ Forall uniform sent)
  /\ (exists sent,
         snd (send_pdf_kumru file log) = log ++ sent /\ Forall uniform sent).
Proof.
  cbv zeta. split; [|split].
  - rewrite ask_kumru_run. cbv zeta. cbn [snd]. eexists. split; [reflexivity|].
    repeat constructor.
  - rewrite send_docs_kumru_run.
    destruct (fitz_open (read file)) as [e|doc].
    + exists []. split; [now rewrite app_nil_r | constructor].
    + destruct (send_docs_loop_appends (enumerate 1 doc) [] log) as (k & Hk).
      exists (take k (docs_requests (readable (enumerate 1 doc)))). split.
      * destruct (send_docs_loop _ _ _) as [[e|r] log']; exact Hk.
      * apply Forall_take. unfold docs_requests. apply List.Forall_forall.
        intros req Hin. apply in_map_iff in Hin.
        destruct Hin as (item & <- & _). repeat split.
  - rewrite send_pdf_kumru_run.
    destruct (fitz_open (read file)) as [e|doc].
    + exists []. split; [now rewrite app_nil_r | constructor].
    + exists (pdf_requests (readable (enumerate 1 doc))).
      split; [reflexivity|].
      unfold pdf_requests. apply List.Forall_forall.
      intros req Hin. apply in_map_iff in Hin.
      destruct Hin as (item & <- & _). repeat split.
Qed.


(** X10: [send_docs_kumru] stops at the first call that fails: when it ends
    with an exception though the document was decoded and every page read,
    the last request in the
    log is the one whose call failed, every call before it succeeded, and
    the pages after it got no call. *)
Theorem send_documents_stops_at_failure
    (file : UploadFile) (doc : list Page) (log : list Request)
    (exc : HTTPException) :
  fitz_open (read file) = inr (map inr doc) ->
  fst (send_docs_kumru file log) = inl exc ->
  exists (k : nat) (req : Request) (e : exn),
    docs_requests (enumerate 1 doc) !! k = Some req
    /\ snd (send_docs_kumru file log)
       = log ++ take k (docs_requests (enumerate 1 doc)) ++ [req]
    /\ call_outcome
         (ollama (log ++ take k (docs_requests (enumerate 1 doc))) req) = inl e
    /\ exc = mkHTTPException 500 (lit "PDF işleme hatası: " ++ exc_str e)
    /\ (forall (j : nat) (req' : Request),
           (j < k)%nat ->
           docs_requests (enumerate 1 doc) !! j = Some req' ->
           exists v,
             call_outcome
               (ollama (log ++ take j (docs_requests (enumerate 1 doc))) req')
             = inr v).
Proof.
  intros Hopen. rewrite send_docs_kumru_run, Hopen.
  destruct (send_docs_loop_read doc 1 [] log)
    as [(vs & _ & Hrun)|(k & e & vs & Hk & Hvs & Hrun)];
    rewrite Hrun; cbn [fst snd]; [discriminate|].
  intros [= <-].
  assert (Hlt : (k < length (docs_requests (enumerate 1 doc)))%nat).
  { apply lookup_lt_Some in Hk. now rewrite length_map, replies_length in Hk. }
  destruct (lookup_lt_is_Some_2 _ _ Hlt) as (req & Hreq).
  exists k, req, e. split; [exact Hreq|]. split.
  - now rewrite (take_S_r _ _ _ Hreq).
  - pose proof (outcomes_lookup _ log _ _ Hreq) as Ho. rewrite Hk in Ho.
    injection Ho as Ho. split; [now symmetry|]. split; [reflexivity|].
    intros j req' Hj Hreq'.
    pose proof (outcomes_lookup _ log _ _ Hreq') as Hj'.
    rewrite <- (lookup_take_lt _ k j) in Hj' by exact Hj.
    rewrite Hvs in Hj'. destruct (lookup_map_inr_Some _ _ _ Hj') as (v & Hv).
    now exists v.
Qed.

(** X11: for a document none of whose pages has text, [send_pdf_kumru] sends
    the same request once per page, with the fixed prompt of the image-based
    extraction: neither the page nor its number reaches the model. *)
Theorem send_pdf_no_text
    (file : UploadFile) (doc : list Page) (log : list Request) :
  fitz_open (read file) = inr (map inr doc) ->
  Forall (fun page => forallb Py_UNICODE_ISSPACE (get_text page) = true) doc ->
  snd (send_pdf_kumru file log)
  = log ++ repeat (mkRequest OLLAMA_GENERATE_URL
                     (mkPayload MODEL_NAME pdf_ocr_prompt false) 120)
             (length doc).
Proof.
  intros Hopen Hblank. rewrite (send_pdf_kumru_read _ _ _ Hopen). clear Hopen.
  cbn [snd].   rewrite pdf_requests_enumerate. f_equal.
  induction Hblank as [|page doc Hpage _ IH]; [reflexivity|].
  cbn [map length repeat]. rewrite IH. f_equal.
  unfold pdf_request. now rewrite (strip_spaces _ Hpage).
Qed.

(** X12: when a page cannot be loaded or read, both PDF handlers end with
    status 500.  [send_pdf_kumru] has then issued the calls of the pages
    before it, one each, and none for the pages after it, and answers with
    the detail [PDF işleme hatası: str(e)] of the page's exception; so does
    [send_docs_kumru] when the calls of the pages before it succeeded.  What
    was aggregated for the pages before is not returned. *)
Theorem page_read_failure
    (file : UploadFile) (before : list Page) (e : exn)
    (after : list (exn + Page)) (log : list Request) :
  fitz_open (read file) = inr (map inr before ++ inl e :: after) ->
  send_pdf_kumru file log
  = (inl (mkHTTPException 500 (lit "PDF işleme hatası: " ++ exc_str e)),
     log ++ map pdf_request before)
  /\ http_status (fst (send_docs_kumru file log)) = 500
  /\ (forall vs,
         map call_outcome
           (replies log (map docs_request (nonempty_pages (enumerate 1 before))))
         = map inr vs ->
         send_docs_kumru file log
         = (inl (mkHTTPException 500 (lit "PDF işleme hatası: " ++ exc_str e)),
            log ++ map docs_request (nonempty_pages (enumerate 1 before)))).
Proof.
  intros Hopen.
  destruct (readable_before before e after 1) as [Hread Herr].
  split; [|split].
  - rewrite send_pdf_kumru_run, Hopen, Hread, Herr.
    now rewrite pdf_requests_enumerate.
  - rewrite send_docs_kumru_run, Hopen.
    destruct (send_docs_loop_run
                (enumerate 1 (map inr before ++ inl e :: after)) [] log)
      as [(ws & _ & Hrun)|(k & e' & ws & _ & _ & Hrun)];
      rewrite Hrun; [rewrite Herr|]; reflexivity.
  - intros vs Hvs. rewrite send_docs_kumru_run, Hopen.
    destruct (send_docs_loop_run
                (enumerate 1 (map inr before ++ inl e :: after)) [] log)
      as [(ws & _ & Hrun)|(k & e' & ws & Hk & _ & _)].
    + rewrite Hrun, Herr, Hread. reflexivity.
    + exfalso. rewrite Hread in Hk. unfold docs_requests in Hk.
      rewrite Hvs in Hk. exact (lookup_map_inr _ _ _ Hk).
Qed.

Lemma send_docs_kumru_appends (file : UploadFile) (log : list Request) :
  exists reqs k, snd (send_docs_kumru file log) = log ++ take k reqs
                 /\ reqs = match fitz_open (read file) with
                           | inl _ => []
                           | inr doc =>
                               docs_requests (readable (enumerate 1 doc))
                           end.
Proof.
  rewrite send_docs_kumru_run.
  destruct (fitz_open (read file)) as [e|doc].
  - exists [], 0%nat. split; [now rewrite app_nil_r | reflexivity].
  - destruct (send_docs_loop_appends (enumerate 1 doc) [] log) as (k & Hk).
    exists (docs_requests (readable (enumerate 1 doc))), k.
    split; [|reflexivity].
    destruct (send_docs_loop _ _ _) as [[e|r] log']; exact Hk.
Qed.

End Kumru.

(** ** The theorems at the sample documents and servers *)

(** The result for the four-page document, as text: two calls, the markers
    of pages 2 and 4 and not those of pages 1 and 3. *)
Example hello_world_markers :
  exists r log',
    send_docs_kumru sample_url sample_model answering_server
      (sample_fitz_open hello_world_pdf) sample_validation_message
      sample_upload [] = (inr r, log')
    /\ length log' = 2%nat
    /\ contains (kumru_response r) (page_marker 1) = false
    /\ contains (kumru_response r) (page_marker 2) = true
    /\ contains (kumru_response r) (page_marker 3) = false
    /\ contains (kumru_response r) (page_marker 4) = true.
Proof.
  eexists; eexists; (split; [run|]); vm_compute; repeat split.
Qed.

Lemma send_documents_skips_empty_pages_witness :
  sample_fitz_open hello_world_pdf (read sample_upload)
  = inr (map inr hello_world_pdf)
  /\ send_docs_kumru sample_url sample_model answering_server
       (sample_fitz_open hello_world_pdf) sample_validation_message
       sample_upload []
     = (inr (mkKumruResponse
               (page_marker 2 ++ format_value (FStr (lit " answer 0" ++ LF))
                ++ page_marker 4 ++ format_value (FStr (lit " answer 1" ++ LF)))),
        [] ++ [docs_request sample_url sample_model (2, lit "Hello");
               docs_request sample_url sample_model (4, lit "World")])
  /\ send_docs_kumru sample_url sample_model answering_server
       (sample_fitz_open hello_world_pdf) sample_validation_message
       sample_upload []
     = (inr (mkKumruResponse
               (aggregate
                  (combine (map fst (nonempty_pages (enumerate 1 hello_world_pdf)))
                     (map format_value
                        [FStr (lit " answer 0" ++ LF);
                         FStr (lit " answer 1" ++ LF)])))),
        [] ++ map (docs_request sample_url sample_model)
                (nonempty_pages (enumerate 1 hello_world_pdf))).
Proof.
  split; [reflexivity|].
  destruct (send_documents_skips_empty_pages sample_url sample_model
              answering_server (sample_fitz_open hello_world_pdf)
              sample_validation_message sample_upload hello_world_pdf []
              eq_refl) as (_ & _ & Hall & H).
  split.
  - apply (H eq_refl (FStr (lit " answer 0" ++ LF))
             (FStr (lit " answer 1" ++ LF))); run.
  - apply (Hall [FStr (lit " answer 0" ++ LF); FStr (lit " answer 1" ++ LF)]).
    run.
Defined.

Lemma send_documents_call_failure_witness :
  sample_fitz_open hello_world_pdf (read sample_upload)
  = inr (map inr hello_world_pdf)
  /\ fst (send_docs_kumru sample_url sample_model (call_fails_at 1)
            (sample_fitz_open hello_world_pdf) sample_validation_message
            sample_upload [])
     = inl (mkHTTPException 500
              (lit "PDF işleme hatası: "
               ++ exc_str (Exn ConnectError
                             (lit "All connection attempts failed")))).
Proof.
  split; [reflexivity|].
  destruct (send_documents_call_failure sample_url sample_model (call_fails_at 1)
              (sample_fitz_open hello_world_pdf) sample_validation_message
              sample_upload hello_world_pdf [] 1
              (docs_request sample_url sample_model (4, lit "World"))
              (Exn ConnectError (lit "All connection attempts failed"))
              eq_refl) as [H _].
  - run.
  - run.
  - exact H.
Defined.

Lemma pdf_decode_failure_witness :
  sample_fitz_open hello_world_pdf (read empty_upload)
  = inl (Exn OtherException (lit "Cannot open empty stream"))
  /\ send_docs_kumru sample_url sample_model answering_server
       (sample_fitz_open hello_world_pdf) sample_validation_message
       empty_upload []
     = (inl (mkHTTPException 500
               (lit "PDF işleme hatası: "
                ++ exc_str (Exn OtherException (lit "Cannot open empty stream")))),
        [])
  /\ send_pdf_kumru sample_url sample_model answering_server
       (sample_fitz_open hello_world_pdf) sample_validation_message
       empty_upload []
     = (inl (mkHTTPException 500
               (lit "PDF işleme hatası: "
                ++ exc_str (Exn OtherException (lit "Cannot open empty stream")))),
        []).
Proof.
  split; [reflexivity|].
  destruct (pdf_decode_failure sample_url sample_model answering_server
              (sample_fitz_open hello_world_pdf) sample_validation_message
              empty_upload (Exn OtherException (lit "Cannot open empty stream"))
              [] eq_refl) as (Hdocs & Hpdf & _).
  split; [exact Hdocs | exact Hpdf].
Defined.


Lemma send_pdf_isolates_failures_witness :
  sample_fitz_open hello_world_pdf (read sample_upload)
  = inr (map inr hello_world_pdf)
  /\ hello_world_pdf !! 2%nat = Some (mkPage [])
  /\ (exists page_text,
         pdf_page_texts sample_url sample_model (call_fails_at 2) []
           (enumerate 1 hello_world_pdf) !! 2%nat
         = Some (1 + N.of_nat 2, page_text)
         /\ page_text
            = lit "(Sayfa " ++ str_of_int (1 + N.of_nat 2)
              ++ lit " için model hatası: "
              ++ exc_str (Exn ConnectError (lit "All connection attempts failed"))
              ++ lit ")")
  /\ (exists page_text,
         pdf_page_texts sample_url sample_model (call_fails_at 2) []
           (enumerate 1 hello_world_pdf) !! 3%nat
         = Some (1 + N.of_nat 3, page_text)
         /\ page_text = strip (lit " answer 3" ++ LF)).
Proof.
  split; [reflexivity|]. split; [reflexivity|].
  destruct (send_pdf_isolates_failures sample_url sample_model (call_fails_at 2)
              (sample_fitz_open hello_world_pdf) sample_validation_message
              sample_upload hello_world_pdf [] eq_refl) as (_ & _ & H).
  split.
  - destruct (H 2%nat (mkPage []) eq_refl) as (page_text & Ht & Herr & _).
    exists page_text. split; [exact Ht|].
    apply (Herr (Exn ConnectError (lit "All connection attempts failed"))).
    run.
  - destruct (H 3%nat (mkPage (lit "World")) eq_refl) as (page_text & Ht & _ & Hok).
    exists page_text. split; [exact Ht|].
    apply (Hok (lit " answer 3" ++ LF)). run.
Defined.

Lemma page_marker_is_sayfa_witness :
  sample_fitz_open blank_first_pdf (read sample_upload)
  = inr (map inr blank_first_pdf)
  /\ send_docs_kumru sample_url sample_model answering_server
       (sample_fitz_open blank_first_pdf) sample_validation_message
       sample_upload []
     = (inr (mkKumruResponse (page_marker 2 ++ lit " answer 0" ++ LF)),
        [docs_request sample_url sample_model (2, lit "Merhaba")])
  /\ (exists vs : list field_value,
         map call_outcome
           (replies answering_server []
              (map (docs_request sample_url sample_model)
                 (nonempty_pages (enumerate 1 blank_first_pdf))))
         = map inr vs
         /\ kumru_response
              (mkKumruResponse (page_marker 2 ++ lit " answer 0" ++ LF))
            = concat (map (fun seg =>
                             (LF ++ LF ++ lit "--- Sayfa "
                              ++ str_of_int (fst seg) ++ lit " ---" ++ LF)
                             ++ snd seg)
                        (combine
                           (map fst (nonempty_pages (enumerate 1 blank_first_pdf)))
                           (map format_value vs))))
  /\ send_pdf_kumru sample_url sample_model answering_server
       (sample_fitz_open blank_first_pdf) sample_validation_message
       sample_upload []
     = (inr (mkKumruResponse
               (page_marker 1 ++ lit "answer 0"
                ++ page_marker 2 ++ lit "answer 1")),
        [pdf_request sample_url sample_model (mkPage (lit "  " ++ LF ++ lit " "));
         pdf_request sample_url sample_model (mkPage (lit "Merhaba"))])
  /\ kumru_response
       (mkKumruResponse
          (page_marker 1 ++ lit "answer 0" ++ page_marker 2 ++ lit "answer 1"))
     = concat (map (fun seg =>
                      (LF ++ LF ++ lit "--- Sayfa " ++ str_of_int (fst seg)
                       ++ lit " ---" ++ LF) ++ snd seg)
                 (pdf_page_texts sample_url sample_model answering_server []
                    (enumerate 1 blank_first_pdf))).
Proof.
  assert (Hdocs : send_docs_kumru sample_url sample_model answering_server
                    (sample_fitz_open blank_first_pdf) sample_validation_message
                    sample_upload []
                  = (inr (mkKumruResponse (page_marker 2 ++ lit " answer 0" ++ LF)),
                     [docs_request sample_url sample_model (2, lit "Merhaba")]))
    by run.
  assert (Hpdf : send_pdf_kumru sample_url sample_model answering_server
                   (sample_fitz_open blank_first_pdf) sample_validation_message
                   sample_upload []
                 = (inr (mkKumruResponse
                           (page_marker 1 ++ lit "answer 0"
                            ++ page_marker 2 ++ lit "answer 1")),
                    [pdf_request sample_url sample_model
                       (mkPage (lit "  " ++ LF ++ lit " "));
                     pdf_request sample_url sample_model (mkPage (lit "Merhaba"))]))
    by run.
  split; [reflexivity|]. split; [exact Hdocs|].
  split; [|split; [exact Hpdf|]].
  - destruct (page_marker_is_sayfa sample_url sample_model answering_server
                (sample_fitz_open blank_first_pdf) sample_validation_message
                sample_upload blank_first_pdf []
                [docs_request sample_url sample_model (2, lit "Merhaba")]
                (mkKumruResponse (page_marker 2 ++ lit " answer 0" ++ LF))
                eq_refl) as (H & _).
    exact (H Hdocs).
  - destruct (page_marker_is_sayfa sample_url sample_model answering_server
                (sample_fitz_open blank_first_pdf) sample_validation_message
                sample_upload blank_first_pdf []
                [pdf_request sample_url sample_model
                   (mkPage (lit "  " ++ LF ++ lit " "));
                 pdf_request sample_url sample_model (mkPage (lit "Merhaba"))]
                (mkKumruResponse
                   (page_marker 1 ++ lit "answer 0"
                    ++ page_marker 2 ++ lit "answer 1"))
                eq_refl) as (_ & H & _).
    exact (H Hpdf).
Defined.

(** C3 as the specification words it fails: the results for the four-page
    document hold the markers [--- Sayfa N ---] and nowhere the text
    [--- Page N ---]. *)
Lemma page_marker_is_not_page :
  (exists r log',
      send_pdf_kumru sample_url sample_model answering_server
        (sample_fitz_open hello_world_pdf) sample_validation_message
        sample_upload [] = (inr r, log')
      /\ contains (kumru_response r) (lit "--- Sayfa 1 ---") = true
      /\ contains (kumru_response r) (spec_page_marker 1) = false
      /\ contains (kumru_response r) (spec_page_marker 2) = false
      /\ contains (kumru_response r) (spec_page_marker 3) = false
      /\ contains (kumru_response r) (spec_page_marker 4) = false)
  /\ (exists r log',
         send_docs_kumru sample_url sample_model answering_server
           (sample_fitz_open hello_world_pdf) sample_validation_message
           sample_upload [] = (inr r, log')
         /\ contains (kumru_response r) (lit "--- Sayfa 2 ---") = true
         /\ contains (kumru_response r) (spec_page_marker 2) = false
         /\ contains (kumru_response r) (spec_page_marker 4) = false).
Proof.
  split; eexists; eexists; (split; [run|]); vm_compute; repeat split.
Qed.

Lemma ask_error_status_witness :
  ask_kumru sample_url sample_model unreachable_server sample_repr
    sample_validation_message (mkKumruRequest (lit "Merhaba?")) []
  = (inl (mkHTTPException 503
            (lit "Ollama service is unavailable: "
             ++ sample_repr (Exn ConnectError (lit "All connection attempts failed")))),
     [] ++ [mkRequest (OLLAMA_GENERATE_URL sample_url)
              (mkPayload sample_model
                 (question (mkKumruRequest (lit "Merhaba?"))) false) 120])
  /\ ask_kumru sample_url sample_model timing_out_server sample_repr
       sample_validation_message (mkKumruRequest (lit "Merhaba?")) []
     = (inl (mkHTTPException 503
               (lit "Ollama service is unavailable: "
                ++ sample_repr (Exn ReadTimeout []))),
        [] ++ [mkRequest (OLLAMA_GENERATE_URL sample_url)
                 (mkPayload sample_model
                    (question (mkKumruRequest (lit "Merhaba?"))) false) 120])
  /\ ask_kumru sample_url sample_model failing_server sample_repr
       sample_validation_message (mkKumruRequest (lit "Merhaba?")) []
     = (inl (mkHTTPException 500
               (lit "An unexpected error occurred: "
                ++ resp_status_message error_response)),
        [] ++ [mkRequest (OLLAMA_GENERATE_URL sample_url)
                 (mkPayload sample_model
                    (question (mkKumruRequest (lit "Merhaba?"))) false) 120])
  /\ ask_kumru sample_url sample_model garbled_server sample_repr
       sample_validation_message (mkKumruRequest (lit "Merhaba?")) []
     = (inl (mkHTTPException 500
               (lit "An unexpected error occurred: "
                ++ lit "Expecting value: line 1 column 1 (char 0)")),
        [] ++ [mkRequest (OLLAMA_GENERATE_URL sample_url)
                 (mkPayload sample_model
                    (question (mkKumruRequest (lit "Merhaba?"))) false) 120])
  /\ ask_kumru sample_url sample_model failing_server sample_repr
       sample_validation_message (mkKumruRequest (lit "Merhaba?")) []
     = (inl (mkHTTPException 500
               (lit "An unexpected error occurred: "
                ++ exc_str (Exn HTTPStatusError
                              (lit "Server error '500 Internal Server Error'")))),
        [] ++ [mkRequest (OLLAMA_GENERATE_URL sample_url)
                 (mkPayload sample_model
                    (question (mkKumruRequest (lit "Merhaba?"))) false) 120]).
Proof.
  split; [|split; [|split; [|split]]].
  - destruct (ask_error_status sample_url sample_model unreachable_server
                sample_repr sample_validation_message
                (mkKumruRequest (lit "Merhaba?")) []) as (H & _).
    apply (H (Exn ConnectError (lit "All connection attempts failed")));
      [reflexivity | left; reflexivity].
  - destruct (ask_error_status sample_url sample_model timing_out_server
                sample_repr sample_validation_message
                (mkKumruRequest (lit "Merhaba?")) []) as (H & _).
    apply (H (Exn ReadTimeout [])); [reflexivity | right; left; reflexivity].
  - destruct (ask_error_status sample_url sample_model failing_server
                sample_repr sample_validation_message
                (mkKumruRequest (lit "Merhaba?")) []) as (_ & _ & H & _).
    apply (H error_response); [reflexivity | run].
  - destruct (ask_error_status sample_url sample_model garbled_server
                sample_repr sample_validation_message
                (mkKumruRequest (lit "Merhaba?")) []) as (_ & _ & _ & H).
    apply (H garbled_response (lit "Expecting value: line 1 column 1 (char 0)"));
      [reflexivity | run | reflexivity].
  - destruct (ask_error_status sample_url sample_model failing_server
                sample_repr sample_validation_message
                (mkKumruRequest (lit "Merhaba?")) []) as (_ & H & _).
    apply (H (Exn HTTPStatusError
                (lit "Server error '500 Internal Server Error'"))); run.
Defined.

(** C6 as the specification words it fails: a read timeout is no network
    error, so the specification asks for 500, and [ask_kumru] answers 503. *)
Lemma ask_timeout_is_not_500 :
  timing_out_server []
    (mkRequest (OLLAMA_GENERATE_URL sample_url)
       (mkPayload sample_model (lit "Merhaba?") false) 120)
  = inl (Exn ReadTimeout [])
  /\ isinstance_TimeoutException (Exn ReadTimeout []) = true
  /\ isinstance_NetworkError (Exn ReadTimeout []) = false
  /\ spec_ask_status (Exn ReadTimeout []) = 500
  /\ http_status
       (fst (ask_kumru sample_url sample_model timing_out_server sample_repr
               sample_validation_message (mkKumruRequest (lit "Merhaba?")) []))
     = 503
  /\ http_status
       (fst (ask_kumru sample_url sample_model timing_out_server sample_repr
               sample_validation_message (mkKumruRequest (lit "Merhaba?")) []))
     <> spec_ask_status (Exn ReadTimeout []).
Proof.
  split; [reflexivity|]. split; [reflexivity|]. split; [reflexivity|].
  split; [reflexivity|]. split; [run|]. vm_compute. discriminate.
Qed.

Lemma ask_one_call_witness :
  fst (ask_kumru sample_url sample_model answering_server sample_repr
         sample_validation_message (mkKumruRequest (lit "Merhaba?")) [])
  = inr (mkKumruResponse (lit " answer 0" ++ LF))
  /\ fst (ask_kumru sample_url sample_model keyless_server sample_repr
            sample_validation_message (mkKumruRequest (lit "Merhaba?")) [])
     = inr (mkKumruResponse [])
  /\ snd (ask_kumru sample_url sample_model answering_server sample_repr
            sample_validation_message (mkKumruRequest (lit "Merhaba?")) [])
     = [] ++ [mkRequest (OLLAMA_GENERATE_URL sample_url)
                (mkPayload sample_model
                   (question (mkKumruRequest (lit "Merhaba?"))) false) 120].
Proof.
  destruct (ask_one_call sample_url sample_model answering_server sample_repr
              sample_validation_message (mkKumruRequest (lit "Merhaba?")) [])
    as (Hlog & _ & _ & Hok).
  destruct (ask_one_call sample_url sample_model keyless_server sample_repr
              sample_validation_message (mkKumruRequest (lit "Merhaba?")) [])
    as (_ & _ & _ & Hnone).
  split; [|split; [|exact Hlog]].
  - destruct (Hok (ok_response (lit " answer 0" ++ LF))
                {[ lit "response" := FStr (lit " answer 0" ++ LF) ]})
      as (H & _); [run | run | reflexivity |].
    apply (H (lit " answer 0" ++ LF)). run.
  - destruct (Hnone done_response
                {[ lit "done" := FOther (lit "bool") (lit "True") ]})
      as (_ & H); [reflexivity | run | reflexivity |].
    apply H. run.
Defined.


(** ** Two servers *)

(** X8: the requests of the PDF handlers do not depend on what the server
    answers.  Under two servers [send_pdf_kumru] logs the same requests, and
    the requests [send_docs_kumru] logs under one are a prefix of those it
    logs under the other: an answer never reaches a later prompt. *)
Theorem pdf_requests_ignore_answers
    (OLLAMA_URL MODEL_NAME : pystr)
    (ollama1 ollama2 : list Request -> Request -> exn + Response)
    (fitz_open : list Byte.byte -> exn + list (exn + Page))
    (message1 message2 : field_value -> pystr)
    (file : UploadFile) (log : list Request) :
  snd (send_pdf_kumru OLLAMA_URL MODEL_NAME ollama1 fitz_open message1 file log)
  = snd (send_pdf_kumru OLLAMA_URL MODEL_NAME ollama2 fitz_open message2 file log)
  /\ exists more,
       snd (send_docs_kumru OLLAMA_URL MODEL_NAME ollama1 fitz_open message1
              file log)
       = snd (send_docs_kumru OLLAMA_URL MODEL_NAME ollama2 fitz_open message2
                file log) ++ more
       \/ snd (send_docs_kumru OLLAMA_URL MODEL_NAME ollama2 fitz_open message2
                 file log)
          = snd (send_docs_kumru OLLAMA_URL MODEL_NAME ollama1 fitz_open message1
                   file log) ++ more.
Proof.
  split.
  - rewrite !send_pdf_kumru_run. now destruct (fitz_open (read file)).
  - destruct (send_docs_kumru_appends OLLAMA_URL MODEL_NAME ollama1 fitz_open
                message1 file log) as (reqs1 & k1 & H1 & R1).
    destruct (send_docs_kumru_appends OLLAMA_URL MODEL_NAME ollama2 fitz_open
                message2 file log) as (reqs2 & k2 & H2 & R2).
    rewrite H1, H2. subst reqs1 reqs2.
    set (reqs := match fitz_open (read file) with
                 | inl _ => []
                 | inr doc =>
                     docs_requests OLLAMA_URL MODEL_NAME
                       (readable (enumerate 1 doc))
                 end).
    destruct (Nat.le_ge_cases k1 k2) as [Hle|Hle].
    + exists (drop k1 (take k2 reqs)). right.
      rewrite <- app_assoc. f_equal.
      rewrite <- (take_drop k1 (take k2 reqs)) at 1.
      rewrite take_take. now replace (k1 `min` k2)%nat with k1 by lia.
    + exists (drop k2 (take k1 reqs)). left.
      rewrite <- app_assoc. f_equal.
      rewrite <- (take_drop k2 (take k1 reqs)) at 1.
      rewrite take_take. now replace (k2 `min` k1)%nat with k2 by lia.
Qed.

(** ** The further properties at the sample documents and servers *)

Lemma ask_503_iff_post_raised_witness :
  http_status
    (fst (ask_kumru sample_url sample_model timing_out_server sample_repr
            sample_validation_message (mkKumruRequest (lit "Merhaba?")) []))
  = 503.
Proof.
  destruct (ask_503_iff_post_raised sample_url sample_model timing_out_server
              sample_repr sample_validation_message
              (mkKumruRequest (lit "Merhaba?")) []) as (_ & Hiff).
  apply Hiff. exists (Exn ReadTimeout []). split; reflexivity.
Defined.

Lemma ask_json_not_object_witness :
  resp_json list_response = inr (JNotDict (lit "list"))
  /\ ask_kumru sample_url sample_model list_server sample_repr
       sample_validation_message (mkKumruRequest (lit "Merhaba?")) []
     = (inl (mkHTTPException 500
               (lit "An unexpected error occurred: "
                ++ (lit "'" ++ lit "list"
                    ++ lit "' object has no attribute 'get'"))),
        [] ++ [mkRequest (OLLAMA_GENERATE_URL sample_url)
                 (mkPayload sample_model
                    (question (mkKumruRequest (lit "Merhaba?"))) false) 120]).
Proof.
  split; [reflexivity|].
  apply (ask_json_not_object sample_url sample_model list_server sample_repr
           sample_validation_message (mkKumruRequest (lit "Merhaba?")) []
           list_response (lit "list")); [reflexivity | run | reflexivity].
Defined.


Lemma send_documents_no_text_witness :
  sample_fitz_open scanned_pdf (read sample_upload)
  = inr (map inr scanned_pdf)
  /\ send_docs_kumru sample_url sample_model answering_server
       (sample_fitz_open scanned_pdf) sample_validation_message
       sample_upload []
     = (inr (mkKumruResponse []), []).
Proof.
  split; [reflexivity|].
  apply (send_documents_no_text sample_url sample_model answering_server
           (sample_fitz_open scanned_pdf) sample_validation_message
           sample_upload scanned_pdf [] eq_refl).
  repeat constructor; run.
Defined.


Lemma send_documents_stops_at_failure_witness :
  sample_fitz_open hello_world_pdf (read sample_upload)
  = inr (map inr hello_world_pdf)
  /\ exists (k : nat) (req : Request) (e : exn),
       docs_requests sample_url sample_model (enumerate 1 hello_world_pdf) !! k
       = Some req
       /\ snd (send_docs_kumru sample_url sample_model (call_fails_at 0)
                 (sample_fitz_open hello_world_pdf) sample_validation_message
                 sample_upload [])
          = [] ++ take k (docs_requests sample_url sample_model
                            (enumerate 1 hello_world_pdf)) ++ [req]
       /\ mkHTTPException 500
            (lit "PDF işleme hatası: "
             ++ exc_str (Exn ConnectError (lit "All connection attempts failed")))
          = mkHTTPException 500 (lit "PDF işleme hatası: " ++ exc_str e).
Proof.
  split; [reflexivity|].
  destruct (send_documents_stops_at_failure sample_url sample_model
              (call_fails_at 0) (sample_fitz_open hello_world_pdf)
              sample_validation_message sample_upload hello_world_pdf []
              (mkHTTPException 500
                 (lit "PDF işleme hatası: "
                  ++ exc_str (Exn ConnectError
                                (lit "All connection attempts failed"))))
              eq_refl) as (k & req & e & Hreq & Hlog & _ & Hexc & _).
  - run.
  - exists k, req, e. split; [exact Hreq|]. split; [exact Hlog | exact Hexc].
Defined.

Lemma send_pdf_no_text_witness :
  sample_fitz_open scanned_pdf (read sample_upload)
  = inr (map inr scanned_pdf)
  /\ snd (send_pdf_kumru sample_url sample_model answering_server
            (sample_fitz_open scanned_pdf) sample_validation_message
            sample_upload [])
     = [] ++ repeat (mkRequest (OLLAMA_GENERATE_URL sample_url)
                       (mkPayload sample_model pdf_ocr_prompt false) 120)
               (length scanned_pdf).
Proof.
  split; [reflexivity|].
  apply (send_pdf_no_text sample_url sample_model answering_server
           (sample_fitz_open scanned_pdf) sample_validation_message
           sample_upload scanned_pdf [] eq_refl).
  repeat constructor; run.
Defined.

Lemma send_pdf_status_witness :
  http_status
    (fst (send_pdf_kumru sample_url sample_model answering_server
            locked_fitz_open sample_validation_message sample_upload []))
  = match locked_fitz_open (read sample_upload) with
    | inl _ => 500
    | inr pages => if forallb is_read pages then 200 else 500
    end
  /\ match locked_fitz_open (read sample_upload) with
     | inl _ => 500
     | inr pages => if forallb is_read pages then 200 else 500
     end = 500.
Proof.
  split; [|reflexivity].
  apply (send_pdf_status sample_url sample_model answering_server
           locked_fitz_open sample_validation_message sample_upload []).
Defined.

Lemma page_read_failure_witness :
  torn_fitz_open (read sample_upload)
  = inr (map inr [mkPage (lit "Hello"); mkPage []]
         ++ inl (Exn OtherException (lit "cannot load page"))
            :: [inr (mkPage (lit "World"))])
  /\ send_pdf_kumru sample_url sample_model answering_server torn_fitz_open
       sample_validation_message sample_upload []
     = (inl (mkHTTPException 500
               (lit "PDF işleme hatası: "
                ++ exc_str (Exn OtherException (lit "cannot load page")))),
        [] ++ map (pdf_request sample_url sample_model)
                [mkPage (lit "Hello"); mkPage []])
  /\ send_docs_kumru sample_url sample_model answering_server torn_fitz_open
       sample_validation_message sample_upload []
     = (inl (mkHTTPException 500
               (lit "PDF işleme hatası: "
                ++ exc_str (Exn OtherException (lit "cannot load page")))),
        [] ++ map (docs_request sample_url sample_model)
                (nonempty_pages (enumerate 1 [mkPage (lit "Hello"); mkPage []]))).
Proof.
  split; [reflexivity|].
  destruct (page_read_failure sample_url sample_model answering_server
              torn_fitz_open sample_validation_message sample_upload
              [mkPage (lit "Hello"); mkPage []]
              (Exn OtherException (lit "cannot load page"))
              [inr (mkPage (lit "World"))] [] eq_refl) as (Hpdf & _ & Hdocs).
  split; [exact Hpdf|].
  apply (Hdocs [FStr (lit " answer 0" ++ LF)]). run.
Defined.
